(** * The simple debugger (sdb) of NEMU: command table, handlers and main loop

    A shallow embedding of [nemu/src/monitor/sdb/sdb.c].

    - C strings are values of [string] (the bytes before the terminating NUL);
      a [char *] that points into a line buffer is modelled by the C string it
      points at, and a NULL pointer by [None].
    - [int] values are [Z]; the conversions the code performs (the cast of
      [strtol]'s result to [int], the conversion of [cpu_exec]'s argument to
      [uint64_t]) are written out.
    - The file-scope variables ([is_batch_mode], [nemu_state], [cpu]) and the
      hidden state of [strtok] are fields of one state record that every
      function threads through a small state monad.
    - Everything the shell does to the outside (text written to stdout, calls
      of [readline], [add_history], [cpu_exec], [isa_reg_display], the byte
      load of [cmd_x]) is appended, in program order, to a trace. *)

From Stdlib Require Import ZArith List String Ascii Bool Lia.
From Stdlib Require DecimalString DecimalZ DecimalPos HexadecimalString.
Import ListNotations.

Local Open Scope string_scope.
Local Open Scope Z_scope.

(* ================================================================== *)
(** ** The C library functions the shell calls *)

Module CLib.

(** The character ['\n']. *)
Definition LF : string := String (ascii_of_nat 10) EmptyString.

Definition strlen (s : string) : nat := String.length s.

(** [strcmp(a, b) == 0]. *)
Definition streq (a b : string) : bool := String.eqb a b.

(** [strchr(set, c) != NULL] for a character [c] other than NUL. *)
Fixpoint strchr (set : string) (c : ascii) : bool :=
  match set with
  | EmptyString => false
  | String d set' => Ascii.eqb c d || strchr set' c
  end.

(** [strspn(s, accept)]: length of the longest prefix of [s] made of
    characters of [accept]. *)
Fixpoint strspn (s accept : string) : nat :=
  match s with
  | EmptyString => O
  | String c s' => if strchr accept c then S (strspn s' accept) else O
  end.

(** [strcspn(s, reject)]: length of the longest prefix of [s] free of
    characters of [reject]. *)
Fixpoint strcspn (s reject : string) : nat :=
  match s with
  | EmptyString => O
  | String c s' => if strchr reject c then O else S (strcspn s' reject)
  end.

(** The C string at [s + n].  Past the terminator there is nothing to
    read; the shell never dereferences such a pointer. *)
Fixpoint advance (n : nat) (s : string) : string :=
  match n, s with
  | O, _ => s
  | S n', String _ s' => advance n' s'
  | S _, EmptyString => EmptyString
  end.

(** The first [n] characters of [s]: what is read at [s] once a NUL has
    been stored at [s + n]. *)
Fixpoint take (n : nat) (s : string) : string :=
  match n, s with
  | S n', String c s' => String c (take n' s')
  | _, _ => EmptyString
  end.

(** [strtok(s, delim)], after glibc's [strtok_r]; [save] is the hidden
    save pointer.  The result is the token (or NULL) and the new save
    pointer.

    <<
      if (s == NULL) s = save;
      if (s[0] == 0) { save = s; return NULL; }
      s += strspn(s, delim);
      if (s[0] == 0) { save = s; return NULL; }
      end = s + strcspn(s, delim);
      if (end[0] == 0) { save = end; return s; }
      end[0] = 0; save = end + 1; return s;
    >> *)
Definition strtok (s : option string) (delim : string) (save : string)
  : option string * string :=
  let s0 := match s with Some b => b | None => save end in
  let s1 := advance (strspn s0 delim) s0 in
  match s1 with
  | EmptyString => (None, EmptyString)
  | String _ _ =>
      let n := strcspn s1 delim in
      match advance n s1 with
      | EmptyString => (Some s1, EmptyString)
      | String _ rest => (Some (take n s1), rest)
      end
  end.

(** [isspace] in the C locale. *)
Definition isspace (c : ascii) : bool :=
  let n := nat_of_ascii c in
  Nat.eqb n 32 || (Nat.leb 9 n && Nat.leb n 13).

Definition digit_of (c : ascii) : option Z :=
  let n := Z.of_nat (nat_of_ascii c) in
  if (48 <=? n) && (n <=? 57) then Some (n - 48) else None.

(** Value of the longest prefix of decimal digits, [acc] being the value
    read so far. *)
Fixpoint digits_val (s : string) (acc : Z) : Z :=
  match s with
  | EmptyString => acc
  | String c s' =>
      match digit_of c with
      | Some d => digits_val s' (10 * acc + d)
      | None => acc
      end
  end.

Fixpoint skip_space (s : string) : string :=
  match s with
  | String c s' => if isspace c then skip_space s' else s
  | EmptyString => s
  end.

Definition LONG_MAX : Z := 2 ^ 63 - 1.
Definition LONG_MIN : Z := - 2 ^ 63.

(** [strtol(s, NULL, 10)] with a 64-bit [long]: leading white space, an
    optional sign, decimal digits; a value out of range is clamped. *)
Definition strtol10 (s : string) : Z :=
  let s1 := skip_space s in
  let v :=
    match s1 with
    | String "-" s2 => - digits_val s2 0
    | String "+" s2 => digits_val s2 0
    | _ => digits_val s1 0
    end in
  Z.max LONG_MIN (Z.min LONG_MAX v).

(** Conversion to a 32-bit [int]. *)
Definition to_int (z : Z) : Z := (z + 2 ^ 31) mod 2 ^ 32 - 2 ^ 31.

(** Conversion to [uint64_t]. *)
Definition to_uint64 (z : Z) : Z := z mod 2 ^ 64.

(** [atoi(s)], which glibc defines as [(int) strtol(s, NULL, 10)]. *)
Definition atoi (s : string) : Z := to_int (strtol10 s).

(** *** The conversions of [printf] the shell uses *)

(** ["%d"] of an [int]. *)
Definition fmt_d (z : Z) : string :=
  DecimalString.NilZero.string_of_int (Z.to_int z).

Definition hex (z : Z) : string :=
  HexadecimalString.NilZero.string_of_uint (N.to_hex_uint (Z.to_N z)).

Fixpoint zeros (n : nat) : string :=
  match n with
  | O => EmptyString
  | S n' => String "0" (zeros n')
  end.

(** ["%0<w>x"] of an [unsigned int]. *)
Definition fmt_0x (w : nat) (z : Z) : string :=
  let h := hex (z mod 2 ^ 32) in
  zeros (w - String.length h) ++ h.

(** ["%p"], as glibc prints a pointer. *)
Definition fmt_p (z : Z) : string :=
  if z =? 0 then "(nil)" else "0x" ++ hex z.

End CLib.

(* ================================================================== *)
(** ** The emulator state the shell reads and writes *)

Module Nemu.

(** Modelled from the spec: the enumeration behind [nemu_state.state] is
    declared in a header that is not part of the sources.  The shell names
    two of its values, [NEMU_RUNNING] and [NEMU_QUIT]; the others are the
    remaining ways in which the emulator is not running. *)
Inductive run_state : Type :=
| NEMU_RUNNING
| NEMU_STOP
| NEMU_END
| NEMU_ABORT
| NEMU_QUIT.

(** [nemu_state]: run state, halt program counter, halt return code. *)
Record NEMUState : Type := mkNEMUState {
  state : run_state;
  halt_pc : Z;
  halt_ret : Z
}.

(** What the shell can see of the emulator: [nemu_state] and [cpu.pc]. *)
Record Machine : Type := mkMachine {
  nemu_state : NEMUState;
  cpu_pc : Z
}.

(** The collaborators the shell calls and does not implement, and the one
    switch of the build configuration the shell tests. *)
Record Collaborators : Type := mkCollaborators {
  (** whether the build defines [CONFIG_DEVICE] *)
  CONFIG_DEVICE : bool;
  (** effect of [cpu_exec(n)] on the emulator state *)
  cpu_exec : Z -> Machine -> Machine;
  (** [guest_to_host(paddr)], a host address *)
  guest_to_host : Z -> Z;
  (** the byte stored at a host address *)
  host_byte : Machine -> Z -> Z
}.

End Nemu.

(* ================================================================== *)
(** ** The shell *)

Module Sdb.
Import CLib Nemu.

(** The prompt: [BEGIN(49, 32) "(nemu) " CLOSE]. *)
Definition SOH : string := String (ascii_of_nat 1) EmptyString.
Definition STX : string := String (ascii_of_nat 2) EmptyString.
Definition ESC : string := String (ascii_of_nat 27) EmptyString.
Definition CLOSE : string := SOH ++ ESC ++ "[0m" ++ STX.
Definition BEGIN (x y : string) : string :=
  SOH ++ ESC ++ "[" ++ x ++ ";" ++ y ++ "m" ++ STX.
Definition prompt : string := BEGIN "49" "32" ++ "(nemu) " ++ CLOSE.

(** The handlers, as the function pointers stored in the command table. *)
Inductive handler_id : Type :=
| H_help | H_c | H_q | H_si | H_info | H_x.

(** What the shell does to the outside, in program order.  [Invoke] is a
    ghost event: it records that the main loop calls a handler, and with
    which [args]. *)
Inductive event : Type :=
| Readline (p : string)          (* readline(p) *)
| AddHistory (line : string)     (* add_history(line) *)
| Stdout (text : string)         (* printf(...), the text written *)
| CpuExec (n : Z)                (* cpu_exec(n), n as uint64_t *)
| IsaRegDisplay                  (* isa_reg_display() *)
| Load8 (host_addr : Z)          (* the volatile uint8_t load at host_addr *)
| InitRegex                      (* init_regex() *)
| InitWpPool                     (* init_wp_pool() *)
| SdlClearEventQueue             (* sdl_clear_event_queue() *)
| Invoke (h : handler_id) (args : option string).

(** The state of the shell: the emulator state it shares with the rest of
    the program, its own file-scope flag, [strtok]'s save pointer, and the
    trace so far. *)
Record State : Type := mkState {
  machine : Machine;
  is_batch_mode : bool;
  strtok_save : string;
  trace : list event
}.

(** The state at program start: [static int is_batch_mode = false]. *)
Definition initial (m : Machine) : State :=
  {| machine := m; is_batch_mode := false;
     strtok_save := EmptyString; trace := [] |}.

(** *** A state monad over [State] *)

Definition M (A : Type) : Type := State -> A * State.

Definition ret {A : Type} (a : A) : M A := fun s => (a, s).

Definition bind {A B : Type} (m : M A) (k : A -> M B) : M B :=
  fun s => let (a, s') := m s in k a s'.

Notation "x <- m ;; k" := (bind m (fun x => k))
  (at level 61, m at next level, right associativity).
Notation "m ;;; k" := (bind m (fun _ => k))
  (at level 61, right associativity).

Definition emit (e : event) : M unit :=
  fun s => (tt, {| machine := machine s; is_batch_mode := is_batch_mode s;
                   strtok_save := strtok_save s; trace := trace s ++ [e] |}).

Definition printf (text : string) : M unit := emit (Stdout text).

Definition get_machine : M Machine := fun s => (machine s, s).

Definition put_machine (m : Machine) : M unit :=
  fun s => (tt, {| machine := m; is_batch_mode := is_batch_mode s;
                   strtok_save := strtok_save s; trace := trace s |}).

(** [strtok(str, delim)] on the shell's state. *)
Definition strtok_call (str : option string) (delim : string)
  : M (option string) :=
  fun s =>
    let (tok, save) := strtok str delim (strtok_save s) in
    (tok, {| machine := machine s; is_batch_mode := is_batch_mode s;
             strtok_save := save; trace := trace s |}).

Section Handlers.

Variable E : Collaborators.

(** [cpu_exec(n)]. *)
Definition call_cpu_exec (n : Z) : M unit :=
  emit (CpuExec n) ;;;
  m <- get_machine ;;
  put_machine (cpu_exec E n m).

Definition cmd_c (args : option string) : M Z :=
  call_cpu_exec (to_uint64 (-1)) ;;;
  ret 0.

Definition cmd_q (args : option string) : M Z :=
  m <- get_machine ;;
  put_machine {| nemu_state :=
                   {| state := NEMU_QUIT;
                      halt_pc := halt_pc (nemu_state m);
                      halt_ret := halt_ret (nemu_state m) |};
                 cpu_pc := cpu_pc m |} ;;;
  (if negb (halt_ret (nemu_state m) =? 0)
   then printf ("NEMU has exited with code "
                ++ fmt_d (halt_ret (nemu_state m)) ++ "." ++ LF)
   else printf ("NEMU has exited successfully." ++ LF)) ;;;
  printf ("Bye!" ++ LF) ;;;
  ret (-1).

Definition cmd_si (args : option string) : M Z :=
  arg <- strtok_call None " " ;;
  let n := 1 in
  match arg with
  | Some a =>
      let n := atoi a in
      if n <=? 0
      then printf ("Invalid step count: " ++ a ++ LF)
      else call_cpu_exec (to_uint64 n)
  | None => call_cpu_exec (to_uint64 n)
  end ;;;
  ret 0.

Definition cmd_info (args : option string) : M Z :=
  arg <- strtok_call None " " ;;
  match arg with
  | Some a =>
      if streq a "r" then emit IsaRegDisplay
      else if streq a "w" then
        printf ("(Watchpoints are not implemented yet.)" ++ LF)
      else if streq a "c" then
        m <- get_machine ;;
        printf ("NEMU state: "
                ++ match state (nemu_state m) with
                   | NEMU_RUNNING => "RUNNING"
                   | _ => "HALTED"
                   end ++ LF) ;;;
        printf ("Halt PC: 0x" ++ fmt_0x 8 (halt_pc (nemu_state m)) ++ LF) ;;;
        printf ("cpu PC: 0x" ++ fmt_0x 8 (cpu_pc m) ++ LF) ;;;
        printf ("Halt return value: " ++ fmt_d (halt_ret (nemu_state m)) ++ LF)
      else
        printf ("Unknown argument '" ++ a ++ "' for 'info' command." ++ LF)
  | None =>
      printf ("Usage: info <r|w|c>" ++ LF) ;;;
      printf ("  r - print registers" ++ LF) ;;;
      printf ("  w - print watchpoints (not implemented yet)" ++ LF) ;;;
      printf ("  c - print NEMU state and halt information" ++ LF)
  end ;;;
  ret 0.

(** The guest address [cmd_x] reads. *)
Definition X_PADDR : Z := 0x80000000.

Definition cmd_x (args : option string) : M Z :=
  arg_N <- strtok_call None " " ;;
  arg_EXPR <- strtok_call None " " ;;
  match arg_N, arg_EXPR with
  | Some n, Some e =>
      printf ("N = " ++ n ++ ", EXPR = " ++ e ++ LF) ;;;
      let addr := guest_to_host E X_PADDR in
      emit (Load8 addr) ;;;
      m <- get_machine ;;
      let value := host_byte E m addr mod 2 ^ 8 in
      printf ("Byte at address " ++ fmt_p addr ++ ": 0x"
              ++ fmt_0x 2 value ++ LF)
  | _, _ => printf ("Usage: x <N> <EXPR>" ++ LF)
  end ;;;
  ret 0.

(** One row of [cmd_table]. *)
Record cmd_entry : Type := mkCmd {
  name : string;
  description : string;
  handler : handler_id
}.

Definition cmd_table : list cmd_entry :=
  [ mkCmd "help" "Display information about all supported commands" H_help;
    mkCmd "c" "Continue the execution of the program" H_c;
    mkCmd "q" "Exit NEMU" H_q;
    mkCmd "si" "Execute N step(s)" H_si;
    mkCmd "info" "Print program state" H_info;
    mkCmd "x" "Scan memory" H_x ].

Definition NR_CMD : nat := List.length cmd_table.

(** The line ["%s - %s\n"] of one row. *)
Definition help_line (e : cmd_entry) : string :=
  name e ++ " - " ++ description e ++ LF.

(** [for (i = 0; i < NR_CMD; i ++) printf(...)] over the rows [tbl]. *)
Fixpoint print_rows (tbl : list cmd_entry) : M unit :=
  match tbl with
  | [] => ret tt
  | e :: tbl' => printf (help_line e) ;;; print_rows tbl'
  end.

(** The search loop both [cmd_help] and [sdb_mainloop] run: the first row
    of [tbl] whose name compares equal to [w], if there is one. *)
Fixpoint find_cmd (w : string) (tbl : list cmd_entry) : option cmd_entry :=
  match tbl with
  | [] => None
  | e :: tbl' => if streq w (name e) then Some e else find_cmd w tbl'
  end.

Definition cmd_help (args : option string) : M Z :=
  arg <- strtok_call None " " ;;
  match arg with
  | None => print_rows cmd_table ;;; ret 0
  | Some a =>
      match find_cmd a cmd_table with
      | Some e => printf (help_line e) ;;; ret 0
      | None => printf ("Unknown command '" ++ a ++ "'" ++ LF) ;;; ret 0
      end
  end.

(** A call through the function pointer of a row. *)
Definition call_handler (h : handler_id) : option string -> M Z :=
  match h with
  | H_help => cmd_help
  | H_c => cmd_c
  | H_q => cmd_q
  | H_si => cmd_si
  | H_info => cmd_info
  | H_x => cmd_x
  end.

End Handlers.

(** [sdb_set_batch_mode()]. *)
Definition sdb_set_batch_mode : M unit :=
  fun s => (tt, {| machine := machine s; is_batch_mode := true;
                   strtok_save := strtok_save s; trace := trace s |}).

(** [init_sdb()]. *)
Definition init_sdb : M unit :=
  emit InitRegex ;;;
  emit InitWpPool.

(** [rl_gets()] on the lines still to come from the terminal; [[]] is end
    of input.  The result is the line (or NULL) and the lines left. *)
Definition rl_gets (input : list string) : M (option string * list string) :=
  emit (Readline prompt) ;;;
  match input with
  | [] => ret (None, [])
  | line :: rest =>
      (if negb (Nat.eqb (strlen line) 0) then emit (AddHistory line)
       else ret tt) ;;;
      ret (Some line, rest)
  end.

Section MainLoop.

(** The loop is written over any build configuration, any table and any
    way of calling a handler; [sdb_mainloop] below is the loop over
    [cmd_table]. *)
Variable device : bool.
Variable table : list cmd_entry.
Variable call : handler_id -> option string -> M Z.

(** The head of the loop body: the command word and [args] of a line,
    [None] when [strtok] finds no token. *)
Definition tokenize (str : string) : M (option (string * option string)) :=
  let str_end := strlen str in
  cmd <- strtok_call (Some str) " " ;;
  match cmd with
  | None => ret None
  | Some cmd =>
      let cmd_off := strspn str " " in
      let args_off := (cmd_off + strlen cmd + 1)%nat in
      let args := if Nat.leb str_end args_off then None
                  else Some (advance args_off str) in
      ret (Some (cmd, args))
  end.

(** The body of the [for] loop on one line; [true]: go on to the next
    line, [false]: [return]. *)
Definition loop_body (str : string) : M bool :=
  t <- tokenize str ;;
  match t with
  | None => ret true
  | Some (cmd, args) =>
      (if device then emit SdlClearEventQueue else ret tt) ;;;
      match find_cmd cmd table with
      | Some e =>
          emit (Invoke (handler e) args) ;;;
          r <- call (handler e) args ;;
          if r <? 0 then ret false else ret true
      | None =>
          printf ("Unknown command '" ++ cmd ++ "'" ++ LF) ;;;
          ret true
      end
  end.

(** [for (char *str; (str = rl_gets()) != NULL; ) { ... }].  The result is
    the lines left unread and the final state. *)
Fixpoint repl (input : list string) (s : State) : list string * State :=
  match input with
  | [] => ([], snd (rl_gets [] s))
  | str :: rest =>
      let (go, s') := loop_body str (snd (rl_gets input s)) in
      if go then repl rest s' else (rest, s')
  end.

End MainLoop.

(** [sdb_mainloop()]. *)
Definition sdb_mainloop (E : Collaborators) (input : list string) (s : State)
  : list string * State :=
  if is_batch_mode s
  then (input, snd ((emit (Invoke H_c None) ;;; cmd_c E None) s))
  else repl (CONFIG_DEVICE E) cmd_table (call_handler E) input s.

(** *** Reading the trace and the line *)

(** The texts written to stdout, in order. *)
Definition printed (t : list event) : list string :=
  flat_map (fun e => match e with Stdout x => [x] | _ => [] end) t.

(** The arguments of the calls of [cpu_exec], in order. *)
Definition steps (t : list event) : list Z :=
  flat_map (fun e => match e with CpuExec n => [n] | _ => [] end) t.

(** The host addresses loaded from, in order. *)
Definition loads (t : list event) : list Z :=
  flat_map (fun e => match e with Load8 a => [a] | _ => [] end) t.

(** The handler calls of the main loop, in order. *)
Definition invoked (t : list event) : list (handler_id * option string) :=
  flat_map (fun e => match e with Invoke h a => [(h, a)] | _ => [] end) t.

(** The number of lines asked of the terminal. *)
Definition fetches (t : list event) : nat :=
  List.length (flat_map (fun e => match e with Readline _ => [e] | _ => [] end) t).

(** What the next [strtok(NULL, " ")] returns in state [s]. *)
Definition next_token (s : State) : option string :=
  fst (strtok None " " (strtok_save s)).

(** What the [strtok(NULL, " ")] after the next one returns in state [s]. *)
Definition second_token (s : State) : option string :=
  fst (strtok None " " (snd (strtok None " " (strtok_save s)))).

(** The command word [strtok(str, " ")] finds in a line. *)
Definition command_word (str : string) : option string :=
  fst (strtok (Some str) " " EmptyString).

(** The names of the rows of a table. *)
Definition names (tbl : list cmd_entry) : list string := map name tbl.

(** [k] space characters. *)
Fixpoint spaces (k : nat) : string :=
  match k with
  | O => EmptyString
  | S k' => String " " (spaces k')
  end.

(** Every character of [s] is the space character. *)
Fixpoint only_spaces (s : string) : bool :=
  match s with
  | EmptyString => true
  | String c s' => Ascii.eqb c " " && only_spaces s'
  end.

(** Every character of [s] is white space in the sense of [isspace]. *)
Fixpoint only_whitespace (s : string) : bool :=
  match s with
  | EmptyString => true
  | String c s' => isspace c && only_whitespace s'
  end.

(** [s] contains no space character. *)
Fixpoint no_space (s : string) : bool :=
  match s with
  | EmptyString => true
  | String c s' => negb (Ascii.eqb c " ") && no_space s'
  end.

(** [s'] differs from [s] in the shell's own state only by what a handler
    may do: it keeps [is_batch_mode], only appends to the trace, asks the
    terminal for no line and calls no handler through the table. *)
Definition frames (s s' : State) : Prop :=
  is_batch_mode s' = is_batch_mode s /\
  exists t, trace s' = (trace s ++ t)%list /\ fetches t = O /\ invoked t = [].

(** [s] once [strtok]'s save pointer is [save] and the events [t] have
    happened. *)
Definition after (save : string) (t : list event) (s : State) : State :=
  {| machine := machine s; is_batch_mode := is_batch_mode s;
     strtok_save := save; trace := trace s ++ t |}.

(** The events of one call of [rl_gets] that returns [line]. *)
Definition fetch_events (line : string) : list event :=
  Readline prompt ::
  (if negb (Nat.eqb (strlen line) 0) then [AddHistory line] else []).

(** The events of the [#ifdef CONFIG_DEVICE] block of the loop. *)
Definition drain_events (device : bool) : list event :=
  if device then [SdlClearEventQueue] else [].

(** *** Sample collaborators and states, for concrete runs *)

(** A build with devices, and an emulator whose [cpu_exec(n)] advances the program counter by four
    bytes per step, with guest memory mapped at a fixed host address and
    every byte of it [0x97]. *)
Definition sample_E : Collaborators :=
  {| CONFIG_DEVICE := true;
     cpu_exec := fun n m =>
       {| nemu_state := nemu_state m; cpu_pc := cpu_pc m + 4 * n |};
     guest_to_host := fun a => a - 0x80000000 + 0x7f0000001000;
     host_byte := fun _ _ => 0x97 |}.

(** A stopped emulator that recorded the halt return code [code]. *)
Definition halted (code : Z) : Machine :=
  {| nemu_state := {| state := NEMU_STOP; halt_pc := 0x80000010;
                      halt_ret := code |};
     cpu_pc := 0x80000010 |}.

(** The shell in interactive mode, [strtok] having left [save] to read. *)
Definition at_args (save : string) : State :=
  {| machine := halted 0; is_batch_mode := false;
     strtok_save := save; trace := [] |}.

(** The character ['\t']. *)
Definition TAB : string := String (ascii_of_nat 9) EmptyString.

(** *** More ways of reading the trace and the emulator *)

(** The lines given to [add_history], in order. *)
Definition history (t : list event) : list string :=
  flat_map (fun e => match e with AddHistory l => [l] | _ => [] end) t.

(** The lines of [ls] that [rl_gets] adds to the history: those whose first
    character is not NUL. *)
Definition nonempty_lines (ls : list string) : list string :=
  filter (fun l => negb (Nat.eqb (strlen l) 0)) ls.

(** The events a handler may cause: text on stdout, [cpu_exec],
    [isa_reg_display], a byte load. *)
Definition handler_event (e : event) : bool :=
  match e with
  | Stdout _ | CpuExec _ | IsaRegDisplay | Load8 _ => true
  | _ => false
  end.

(** The events of the handlers that only inspect: text on stdout,
    [isa_reg_display], a byte load. *)
Definition inspect_event (e : event) : bool :=
  match e with
  | Stdout _ | IsaRegDisplay | Load8 _ => true
  | _ => false
  end.

(** [m] after [nemu_state.state = NEMU_QUIT]. *)
Definition mark_quit (m : Machine) : Machine :=
  {| nemu_state := {| state := NEMU_QUIT;
                      halt_pc := halt_pc (nemu_state m);
                      halt_ret := halt_ret (nemu_state m) |};
     cpu_pc := cpu_pc m |}.

(** [m] after the calls [cpu_exec(n)] for the [n] of [ns], in order. *)
Definition replay (E : Collaborators) (ns : list Z) (m : Machine) : Machine :=
  fold_left (fun m' n => cpu_exec E n m') ns m.

(** [cmd_q] is among the handlers called. *)
Definition quit_called (calls : list (handler_id * option string)) : bool :=
  existsb (fun c => match fst c with H_q => true | _ => false end) calls.

(** A step count the shell may pass to [cpu_exec]: the [(uint64_t) -1] of
    [cmd_c], or a positive [int]. *)
Definition step_count_ok (n : Z) : Prop :=
  n = 2 ^ 64 - 1 \/ 1 <= n <= 2 ^ 31 - 1.

(** What may follow a word on a line: nothing, or a space and the rest. *)
Definition then_rest (tail : option string) : string :=
  match tail with
  | None => EmptyString
  | Some r => String " " r
  end.

(** The number of calls of [sdl_clear_event_queue]. *)
Definition drains (t : list event) : nat :=
  List.length
    (flat_map (fun e => match e with SdlClearEventQueue => [e] | _ => [] end) t).

(** The calls of [init_regex] and [init_wp_pool], in order. *)
Definition inits (t : list event) : list event :=
  flat_map (fun e => match e with
                     | InitRegex | InitWpPool => [e]
                     | _ => []
                     end) t.

(** The line has a command word. *)
Definition has_word (line : string) : bool :=
  match command_word line with Some _ => true | None => false end.

(** The command word of the line is the name of a row of [cmd_table]. *)
Definition names_row (line : string) : bool :=
  match command_word line with
  | Some w => match find_cmd w cmd_table with Some _ => true | None => false end
  | None => false
  end.

(** *** Words delimited by white space *)

(** The words of [s] when any white space in the sense of [isspace], and not
    the space character alone, delimits them; [cur] is the word being read,
    if one has started. *)
Fixpoint ws_words_from (s : string) (cur : option string) : list string :=
  match s with
  | EmptyString => match cur with Some w => [w] | None => [] end
  | String c s' =>
      if isspace c
      then match cur with Some w => [w] | None => [] end
           ++ ws_words_from s' None
      else ws_words_from s'
             (Some (match cur with Some w => w | None => EmptyString end
                    ++ String c EmptyString))
  end.

Definition ws_words (s : string) : list string := ws_words_from s None.

(** The first word of [s] delimited by white space. *)
Definition first_ws_word (s : string) : option string := hd_error (ws_words s).

End Sdb.

(* ================================================================== *)
(** ** Properties *)

Import CLib Nemu Sdb.

(** *** The C library model *)

Lemma to_int_range (z : Z) : - 2 ^ 31 <= to_int z < 2 ^ 31.
Proof.
  unfold to_int.
  pose proof (Z.mod_pos_bound (z + 2 ^ 31) (2 ^ 32) ltac:(lia)). lia.
Qed.

Lemma atoi_range (a : string) : - 2 ^ 31 <= atoi a < 2 ^ 31.
Proof. apply to_int_range. Qed.

Lemma to_uint64_small (n : Z) : 0 <= n < 2 ^ 31 -> to_uint64 n = n.
Proof. intros H. unfold to_uint64. apply Z.mod_small. lia. Qed.

(** *** The handlers *)

Ltac run_monad :=
  unfold bind, ret, printf, emit, call_cpu_exec, get_machine, put_machine,
    strtok_call; simpl.

(** C1.  [cmd_si] returns 0 in every case.  Its argument is the token its
    call [strtok(NULL, " ")] finds.  When there is none
    it calls [cpu_exec(1)] once and does nothing else; when the argument's
    [atoi] value [n] is positive it calls [cpu_exec(n)] once and does nothing
    else; when that value is zero or negative it calls nothing, leaves the
    emulator as it was and prints ["Invalid step count: <arg>"].  The
    arguments ["3"], ["0"], ["-5"] and ["abc"] parse as 3, 0, -5 and 0. *)
Theorem cmd_si_steps (E : Collaborators) (args : option string) (s : State) :
  fst (cmd_si E args s) = 0 /\
  (next_token s = None ->
     trace (snd (cmd_si E args s)) = (trace s ++ [CpuExec 1])%list /\
     machine (snd (cmd_si E args s)) = cpu_exec E 1 (machine s)) /\
  (forall a, next_token s = Some a -> 0 < atoi a ->
     trace (snd (cmd_si E args s)) = (trace s ++ [CpuExec (atoi a)])%list /\
     machine (snd (cmd_si E args s)) = cpu_exec E (atoi a) (machine s)) /\
  (forall a, next_token s = Some a -> atoi a <= 0 ->
     trace (snd (cmd_si E args s))
       = (trace s ++ [Stdout ("Invalid step count: " ++ a ++ LF)])%list /\
     machine (snd (cmd_si E args s)) = machine s) /\
  atoi "3" = 3 /\ atoi "0" = 0 /\ atoi "-5" = -5 /\ atoi "abc" = 0.
Proof.
  assert (Hex : atoi "3" = 3 /\ atoi "0" = 0 /\ atoi "-5" = -5 /\ atoi "abc" = 0)
    by (vm_compute; repeat split; reflexivity).
  unfold next_token, cmd_si. run_monad.
  destruct (strtok None " " (strtok_save s)) as [arg save]; simpl.
  destruct arg as [a|]; simpl.
  - pose proof (atoi_range a) as Hr.
    destruct (atoi a <=? 0) eqn:Hn; simpl.
    + apply Z.leb_le in Hn.
      split; [reflexivity|]. split; [discriminate|].
      split; [intros b Hb Hpos; injection Hb as <-; lia|].
      split; [|exact Hex].
      intros b Hb _. injection Hb as <-. split; reflexivity.
    + apply Z.leb_gt in Hn.
      rewrite (to_uint64_small (atoi a)) by lia.
      split; [reflexivity|]. split; [discriminate|].
      split; [|split; [intros b Hb Hle; injection Hb as <-; lia|exact Hex]].
      intros b Hb _. injection Hb as <-. split; reflexivity.
  - split; [reflexivity|]. split; [intros _; split; reflexivity|].
    split; [discriminate|]. split; [discriminate|exact Hex].
Qed.

Lemma cmd_si_steps_witness :
  steps (trace (snd (cmd_si sample_E (Some "3") (at_args "3")))) = [3] /\
  printed (trace (snd (cmd_si sample_E (Some "abc") (at_args "abc"))))
    = ["Invalid step count: abc" ++ LF] /\
  steps (trace (snd (cmd_si sample_E None (at_args "")))) = [1].
Proof.
  destruct (cmd_si_steps sample_E (Some "3") (at_args "3"))
    as (_ & _ & Hpos & _).
  destruct (cmd_si_steps sample_E (Some "abc") (at_args "abc"))
    as (_ & _ & _ & Hbad & _).
  destruct (cmd_si_steps sample_E None (at_args ""))
    as (_ & Hnone & _).
  destruct (Hpos "3" eq_refl) as [Ht _]; [vm_compute; reflexivity|].
  destruct (Hbad "abc" eq_refl) as [Hb _]; [vm_compute; discriminate|].
  destruct (Hnone eq_refl) as [Hn _].
  rewrite Ht, Hb, Hn. repeat split.
Defined.

(** The message of [cmd_q] is fixed by the halt return code alone: the
    argument, the state of [strtok], the program counters and the run state
    play no part. *)
Lemma cmd_q_run (args : option string) (s : State) :
  cmd_q args s =
  (-1,
   {| machine :=
        {| nemu_state :=
             {| state := NEMU_QUIT;
                halt_pc := halt_pc (nemu_state (machine s));
                halt_ret := halt_ret (nemu_state (machine s)) |};
           cpu_pc := cpu_pc (machine s) |};
      is_batch_mode := is_batch_mode s;
      strtok_save := strtok_save s;
      trace :=
        (trace s ++
         [Stdout (if halt_ret (nemu_state (machine s)) =? 0
                  then "NEMU has exited successfully." ++ LF
                  else "NEMU has exited with code "
                       ++ fmt_d (halt_ret (nemu_state (machine s)))
                       ++ "." ++ LF);
          Stdout ("Bye!" ++ LF)])%list |}).
Proof.
  unfold cmd_q. run_monad.
  destruct (halt_ret (nemu_state (machine s)) =? 0); simpl;
    rewrite <- app_assoc; reflexivity.
Qed.

(** ["%d"] prints different numbers differently. *)
Lemma fmt_d_inj (a b : Z) : fmt_d a = fmt_d b -> a = b.
Proof.
  unfold fmt_d. intros H. apply DecimalZ.to_int_inj.
  assert (Hnil : forall z : Z,
            Z.to_int z <> Decimal.Pos Decimal.Nil /\
            Z.to_int z <> Decimal.Neg Decimal.Nil).
  { intros [|p|p]; simpl; split; try discriminate;
      intros Hp; injection Hp as Hp;
      exact (DecimalPos.Unsigned.to_uint_nonnil p Hp). }
  pose proof (DecimalString.NilZero.isi (Z.to_int a)
                (proj1 (Hnil a)) (proj2 (Hnil a))) as Ha.
  pose proof (DecimalString.NilZero.isi (Z.to_int b)
                (proj1 (Hnil b)) (proj2 (Hnil b))) as Hb.
  rewrite H in Ha. rewrite Ha in Hb. injection Hb as Hb. exact Hb.
Qed.

Lemma append_length_sum (a t : string) :
  String.length (a ++ t) = (String.length a + String.length t)%nat.
Proof. induction a as [|c a IH]; simpl; [reflexivity|]. f_equal. exact IH. Qed.

Lemma append_cancel_tail (a b t : string) : a ++ t = b ++ t -> a = b.
Proof.
  revert b. induction a as [|c a IH]; intros [|d b] H.
  - reflexivity.
  - exfalso. apply (f_equal String.length) in H. simpl in H.
    rewrite append_length_sum in H. lia.
  - exfalso. apply (f_equal String.length) in H. simpl in H.
    rewrite append_length_sum in H. lia.
  - simpl in H. injection H as -> H. f_equal. apply IH. exact H.
Qed.

(** C3, as the code has it.  What [cmd_q] prints is a function of the
    recorded halt return code and of nothing else: it is two lines, the
    success message and the farewell when the code is zero, and the failure
    message quoting the code and the farewell otherwise.  Two states with the
    same halt return code get the same lines, whatever else differs, and two
    states with different halt return codes get different ones. *)
Theorem cmd_q_output_by_halt_ret (a1 a2 : option string) (s1 s2 : State) :
  exists out1 out2 : list event,
    trace (snd (cmd_q a1 s1)) = (trace s1 ++ out1)%list /\
    trace (snd (cmd_q a2 s2)) = (trace s2 ++ out2)%list /\
    out1 = [Stdout (if halt_ret (nemu_state (machine s1)) =? 0
                    then "NEMU has exited successfully." ++ LF
                    else "NEMU has exited with code "
                         ++ fmt_d (halt_ret (nemu_state (machine s1)))
                         ++ "." ++ LF);
            Stdout ("Bye!" ++ LF)] /\
    (halt_ret (nemu_state (machine s1)) = halt_ret (nemu_state (machine s2)) ->
     out1 = out2) /\
    (halt_ret (nemu_state (machine s1)) <> halt_ret (nemu_state (machine s2)) ->
     printed out1 <> printed out2).
Proof.
  eexists. eexists. rewrite !cmd_q_run. cbn [snd trace].
  split; [reflexivity|]. split; [reflexivity|]. split; [reflexivity|].
  split.
  - intros ->. reflexivity.
  - intros Hneq Heq. apply Hneq. clear Hneq.
    cbn [printed flat_map app] in Heq. injection Heq as Heq.
    destruct (halt_ret (nemu_state (machine s1)) =? 0) eqn:H1;
      destruct (halt_ret (nemu_state (machine s2)) =? 0) eqn:H2.
    + apply Z.eqb_eq in H1, H2. congruence.
    + discriminate Heq.
    + discriminate Heq.
    + simpl in Heq. injection Heq as Heq.
      apply fmt_d_inj. exact (append_cancel_tail _ _ _ Heq).
Qed.

Lemma cmd_q_output_by_halt_ret_witness :
  trace (snd (cmd_q (Some "now") (at_args "now")))
    = trace (snd (cmd_q None (initial (halted 0)))) /\
  printed (trace (snd (cmd_q None (initial (halted 1)))))
    <> printed (trace (snd (cmd_q None (initial (halted 257))))).
Proof.
  destruct (cmd_q_output_by_halt_ret (Some "now") None
              (at_args "now") (initial (halted 0)))
    as (out1 & out2 & H1 & H2 & _ & Hsame & _).
  destruct (cmd_q_output_by_halt_ret None None
              (initial (halted 1)) (initial (halted 257)))
    as (o1 & o2 & H3 & H4 & _ & _ & Hdiff).
  split.
  - rewrite H1, H2, (Hsame eq_refl). reflexivity.
  - rewrite H3, H4. exact (Hdiff ltac:(simpl; discriminate)).
Defined.

(** C3, as stated, fails: the halt return codes 1 and 2 are both non-zero,
    and [cmd_q] prints ["NEMU has exited with code 1."] for the one and
    ["NEMU has exited with code 2."] for the other. *)
Lemma cmd_q_output_differs_on_nonzero_codes :
  halt_ret (nemu_state (halted 1)) <> 0 /\
  halt_ret (nemu_state (halted 2)) <> 0 /\
  printed (trace (snd (cmd_q None (initial (halted 1)))))
    = ["NEMU has exited with code 1." ++ LF; "Bye!" ++ LF] /\
  printed (trace (snd (cmd_q None (initial (halted 2)))))
    = ["NEMU has exited with code 2." ++ LF; "Bye!" ++ LF] /\
  printed (trace (snd (cmd_q None (initial (halted 1)))))
    <> printed (trace (snd (cmd_q None (initial (halted 2))))).
Proof.
  repeat split; try (vm_compute; discriminate).
Qed.

(** *** What every handler leaves alone *)

Lemma fetches_app (t u : list event) :
  fetches (t ++ u) = (fetches t + fetches u)%nat.
Proof. unfold fetches. rewrite flat_map_app, length_app. reflexivity. Qed.

Lemma invoked_app (t u : list event) :
  invoked (t ++ u) = (invoked t ++ invoked u)%list.
Proof. unfold invoked. apply flat_map_app. Qed.

Lemma print_rows_run (tbl : list cmd_entry) (s : State) :
  print_rows tbl s =
  (tt, {| machine := machine s; is_batch_mode := is_batch_mode s;
          strtok_save := strtok_save s;
          trace := (trace s ++ map (fun e => Stdout (help_line e)) tbl)%list |}).
Proof.
  revert s. induction tbl as [|e tbl IH]; intros s; simpl.
  - rewrite app_nil_r. destruct s; reflexivity.
  - run_monad. rewrite IH. simpl. rewrite <- app_assoc. reflexivity.
Qed.

Ltac frame_step :=
  split; [reflexivity|]; simpl; eexists;
  split; [reflexivity|split; reflexivity].

Lemma cmd_c_run (E : Collaborators) (args : option string) (s : State) :
  cmd_c E args s =
  (0, {| machine := cpu_exec E (2 ^ 64 - 1) (machine s);
         is_batch_mode := is_batch_mode s;
         strtok_save := strtok_save s;
         trace := (trace s ++ [CpuExec (2 ^ 64 - 1)])%list |}).
Proof. reflexivity. Qed.

Lemma cmd_si_frames (E : Collaborators) (args : option string) (s : State) :
  fst (cmd_si E args s) = 0 /\ frames s (snd (cmd_si E args s)).
Proof.
  unfold cmd_si. run_monad.
  destruct (strtok None " " (strtok_save s)) as [[a|] save]; simpl.
  - destruct (atoi a <=? 0); simpl; (split; [reflexivity|frame_step]).
  - split; [reflexivity|frame_step].
Qed.

Lemma cmd_info_frames (args : option string) (s : State) :
  fst (cmd_info args s) = 0 /\ frames s (snd (cmd_info args s)).
Proof.
  unfold cmd_info. run_monad.
  destruct (strtok None " " (strtok_save s)) as [[a|] save]; simpl.
  - destruct (streq a "r"); simpl; [split; [reflexivity|frame_step]|].
    destruct (streq a "w"); simpl; [split; [reflexivity|frame_step]|].
    destruct (streq a "c"); simpl; (split; [reflexivity|]).
    + split; [reflexivity|]. simpl. rewrite <- !app_assoc. simpl.
      eexists; split; [reflexivity|split; reflexivity].
    + frame_step.
  - split; [reflexivity|]. split; [reflexivity|]. simpl.
    rewrite <- !app_assoc. simpl.
    eexists; split; [reflexivity|split; reflexivity].
Qed.

Lemma cmd_x_frames (E : Collaborators) (args : option string) (s : State) :
  fst (cmd_x E args s) = 0 /\ frames s (snd (cmd_x E args s)).
Proof.
  unfold cmd_x. run_monad.
  destruct (strtok None " " (strtok_save s)) as [a1 save1]; simpl.
  destruct (strtok None " " save1) as [a2 save2]; simpl.
  destruct a1 as [n|]; [destruct a2 as [e|]|]; simpl;
    (split; [reflexivity|]); try frame_step.
  split; [reflexivity|]. simpl. rewrite <- !app_assoc. simpl.
  eexists; split; [reflexivity|split; reflexivity].
Qed.

Lemma fetches_help_lines (tbl : list cmd_entry) :
  fetches (map (fun e => Stdout (help_line e)) tbl) = O.
Proof. induction tbl as [|e tbl IH]; [reflexivity|exact IH]. Qed.

Lemma invoked_help_lines (tbl : list cmd_entry) :
  invoked (map (fun e => Stdout (help_line e)) tbl) = [].
Proof. induction tbl as [|e tbl IH]; [reflexivity|exact IH]. Qed.

Lemma cmd_help_run (args : option string) (s : State) :
  cmd_help args s =
  (0, {| machine := machine s; is_batch_mode := is_batch_mode s;
         strtok_save := snd (strtok None " " (strtok_save s));
         trace :=
           (trace s ++
            match next_token s with
            | None => map (fun e => Stdout (help_line e)) cmd_table
            | Some a =>
                match find_cmd a cmd_table with
                | Some e => [Stdout (help_line e)]
                | None => [Stdout ("Unknown command '" ++ a ++ "'" ++ LF)]
                end
            end)%list |}).
Proof.
  unfold cmd_help, next_token, bind, strtok_call.
  destruct (strtok None " " (strtok_save s)) as [[a|] save]; cbn [fst snd].
  - destruct (find_cmd a cmd_table) as [e|]; reflexivity.
  - rewrite print_rows_run. reflexivity.
Qed.

Lemma cmd_help_frames (args : option string) (s : State) :
  fst (cmd_help args s) = 0 /\ frames s (snd (cmd_help args s)).
Proof.
  rewrite cmd_help_run. split; [reflexivity|]. split; [reflexivity|].
  eexists; split; [reflexivity|].
  destruct (next_token s) as [a|].
  - destruct (find_cmd a cmd_table); split; reflexivity.
  - split; [apply fetches_help_lines|apply invoked_help_lines].
Qed.

Lemma cmd_q_frames (args : option string) (s : State) :
  fst (cmd_q args s) = -1 /\ frames s (snd (cmd_q args s)).
Proof. rewrite cmd_q_run. simpl. split; [reflexivity|frame_step]. Qed.

Lemma call_handler_frames
  (E : Collaborators) (h : handler_id) (args : option string) (s : State) :
  frames s (snd (call_handler E h args s)).
Proof.
  destruct h; unfold call_handler.
  - apply cmd_help_frames.
  - rewrite cmd_c_run. frame_step.
  - apply cmd_q_frames.
  - apply cmd_si_frames.
  - apply cmd_info_frames.
  - apply cmd_x_frames.
Qed.

Lemma call_handler_status
  (E : Collaborators) (h : handler_id) (args : option string) (s : State) :
  fst (call_handler E h args s) = if match h with H_q => true | _ => false end
                                  then -1 else 0.
Proof.
  destruct h; unfold call_handler.
  - apply cmd_help_frames.
  - reflexivity.
  - apply cmd_q_frames.
  - apply cmd_si_frames.
  - apply cmd_info_frames.
  - apply cmd_x_frames.
Qed.

(** C7, as the code has it.  [cmd_x] returns 0.  Its arguments are the
    tokens its two calls [strtok(NULL, " ")] find: the space character alone
    separates them.  When they find none or only one,
    it prints the usage line and does nothing else: no byte is loaded.  When
    it finds two, [N] and [EXPR], it echoes them, loads one byte, at the host
    address of the guest address [0x80000000], and prints that byte; the
    address of the load is the same for every [N] and [EXPR]. *)
Theorem cmd_x_usage_or_one_fixed_byte
  (E : Collaborators) (args : option string) (s : State) :
  fst (cmd_x E args s) = 0 /\
  (next_token s = None \/ second_token s = None ->
     trace (snd (cmd_x E args s))
       = (trace s ++ [Stdout ("Usage: x <N> <EXPR>" ++ LF)])%list /\
     loads (trace (snd (cmd_x E args s))) = loads (trace s)) /\
  (forall n e : string,
     next_token s = Some n -> second_token s = Some e ->
     trace (snd (cmd_x E args s))
       = (trace s ++
          [Stdout ("N = " ++ n ++ ", EXPR = " ++ e ++ LF);
           Load8 (guest_to_host E 0x80000000);
           Stdout ("Byte at address " ++ fmt_p (guest_to_host E 0x80000000)
                   ++ ": 0x"
                   ++ fmt_0x 2 (host_byte E (machine s)
                                  (guest_to_host E 0x80000000) mod 2 ^ 8)
                   ++ LF)])%list /\
     loads (trace (snd (cmd_x E args s)))
       = (loads (trace s) ++ [guest_to_host E 0x80000000])%list).
Proof.
  unfold next_token, second_token, cmd_x. run_monad.
  destruct (strtok None " " (strtok_save s)) as [a1 save1]; simpl.
  destruct (strtok None " " save1) as [a2 save2]; simpl.
  split; [destruct a1, a2; reflexivity|]. split.
  - intros Hmiss.
    assert (Hcase : a1 = None \/ a2 = None) by exact Hmiss.
    destruct a1 as [n|]; [destruct a2 as [e|]|]; simpl.
    + destruct Hcase; discriminate.
    + unfold loads. rewrite flat_map_app. simpl. rewrite app_nil_r.
      split; reflexivity.
    + unfold loads. rewrite flat_map_app. simpl. rewrite app_nil_r.
      split; reflexivity.
  - intros n e Hn He. subst a1 a2. simpl.
    rewrite <- !app_assoc. simpl. split; [reflexivity|].
    unfold loads. rewrite flat_map_app. reflexivity.
Qed.

Lemma cmd_x_usage_or_one_fixed_byte_witness :
  printed (trace (snd (cmd_x sample_E (Some "4") (at_args "4"))))
    = ["Usage: x <N> <EXPR>" ++ LF] /\
  loads (trace (snd (cmd_x sample_E (Some "4") (at_args "4")))) = [] /\
  trace (snd (cmd_x sample_E (Some "4 $pc") (at_args "4 $pc")))
    = [Stdout ("N = 4, EXPR = $pc" ++ LF);
       Load8 0x7f0000001000;
       Stdout ("Byte at address 0x7f0000001000: 0x97" ++ LF)] /\
  loads (trace (snd (cmd_x sample_E (Some "9 0x0") (at_args "9 0x0"))))
    = [0x7f0000001000].
Proof.
  destruct (cmd_x_usage_or_one_fixed_byte sample_E (Some "4") (at_args "4"))
    as (_ & Husage & _).
  destruct (cmd_x_usage_or_one_fixed_byte sample_E (Some "4 $pc")
              (at_args "4 $pc")) as (_ & _ & Hread1).
  destruct (cmd_x_usage_or_one_fixed_byte sample_E (Some "9 0x0")
              (at_args "9 0x0")) as (_ & _ & Hread2).
  destruct (Husage (or_intror eq_refl)) as [Ht Hl].
  destruct (Hread1 "4" "$pc" eq_refl eq_refl) as [Ht1 _].
  destruct (Hread2 "9" "0x0" eq_refl eq_refl) as [_ Hl2].
  rewrite Hl, Ht, Ht1, Hl2. repeat split.
Defined.

(** C7, as stated, fails when white space other than the space character
    counts as a separator.  After [x], the remainder ["1 <tab>"] holds one
    word delimited by white space, yet [cmd_x] finds the two tokens ["1"] and
    ["<tab>"] and loads a byte; the remainder ["1<tab>2"] holds two such
    words, yet [cmd_x] finds one token and prints the usage line. *)
Lemma cmd_x_counts_space_delimited_tokens :
  ws_words ("1 " ++ TAB) = ["1"] /\
  loads (trace (snd (sdb_mainloop sample_E ["x 1 " ++ TAB]
                       (initial (halted 0)))))
    = [0x7f0000001000] /\
  printed (trace (snd (sdb_mainloop sample_E ["x 1 " ++ TAB]
                         (initial (halted 0)))))
    = ["N = 1, EXPR = " ++ TAB ++ LF;
       "Byte at address 0x7f0000001000: 0x97" ++ LF] /\
  ws_words ("1" ++ TAB ++ "2") = ["1"; "2"] /\
  loads (trace (snd (sdb_mainloop sample_E ["x 1" ++ TAB ++ "2"]
                       (initial (halted 0)))))
    = [] /\
  printed (trace (snd (sdb_mainloop sample_E ["x 1" ++ TAB ++ "2"]
                         (initial (halted 0)))))
    = ["Usage: x <N> <EXPR>" ++ LF].
Proof. repeat split. Qed.

(** *** The command table *)

Lemma names_cmd_table :
  names cmd_table = ["help"; "c"; "q"; "si"; "info"; "x"].
Proof. reflexivity. Qed.

Lemma NoDup_names_cmd_table : NoDup (names cmd_table).
Proof.
  rewrite names_cmd_table.
  repeat (constructor; [simpl; intuition discriminate|]). constructor.
Qed.

Lemma streq_eq (a b : string) : streq a b = true <-> a = b.
Proof. apply String.eqb_eq. Qed.

Lemma find_cmd_none (w : string) (tbl : list cmd_entry) :
  find_cmd w tbl = None <-> ~ In w (names tbl).
Proof.
  induction tbl as [|e tbl IH]; simpl.
  - split; [intros _ []|reflexivity].
  - destruct (streq w (name e)) eqn:Hw.
    + apply streq_eq in Hw. split; [discriminate|]. intros H. exfalso. auto.
    + rewrite IH. split.
      * intros Hn [He|Hin]; [|auto].
        subst w. unfold streq in Hw. rewrite String.eqb_refl in Hw. discriminate.
      * intros Hn Hin. apply Hn. right. exact Hin.
Qed.

Lemma find_cmd_some (w : string) (tbl : list cmd_entry) (e : cmd_entry) :
  find_cmd w tbl = Some e -> In e tbl /\ name e = w.
Proof.
  induction tbl as [|e' tbl IH]; simpl; [discriminate|].
  destruct (streq w (name e')) eqn:Hw.
  - intros H. injection H as <-. apply streq_eq in Hw. auto.
  - intros H. destruct (IH H). auto.
Qed.

Lemma find_cmd_row (e : cmd_entry) :
  In e cmd_table -> find_cmd (name e) cmd_table = Some e.
Proof.
  unfold cmd_table. simpl.
  intros [<-|[<-|[<-|[<-|[<-|[<-|[]]]]]]]; reflexivity.
Qed.

(** C8.  [cmd_help] returns 0 in every case.  Its argument is the token its
    call [strtok(NULL, " ")] finds.  Without an argument it prints
    one line ["<name> - <description>"] per row of [cmd_table], each row
    once, in the order of the table.  With the name of a row as argument it
    prints the line of that row and nothing else.  With an argument that is
    no row's name it prints ["Unknown command '<arg>'"].  No two rows have
    the same name. *)
Theorem cmd_help_prints (args : option string) (s : State) :
  fst (cmd_help args s) = 0 /\
  (next_token s = None ->
     trace (snd (cmd_help args s))
       = (trace s ++
          map (fun e => Stdout (name e ++ " - " ++ description e ++ LF))
              cmd_table)%list) /\
  (forall e : cmd_entry,
     In e cmd_table -> next_token s = Some (name e) ->
     trace (snd (cmd_help args s))
       = (trace s ++ [Stdout (name e ++ " - " ++ description e ++ LF)])%list) /\
  (forall a : string,
     next_token s = Some a -> ~ In a (names cmd_table) ->
     trace (snd (cmd_help args s))
       = (trace s ++ [Stdout ("Unknown command '" ++ a ++ "'" ++ LF)])%list) /\
  NoDup (names cmd_table).
Proof.
  rewrite cmd_help_run. cbn [fst snd trace].
  split; [reflexivity|]. split; [|split; [|split]].
  - intros ->. reflexivity.
  - intros e Hin ->. rewrite (find_cmd_row e Hin). reflexivity.
  - intros a -> Hno. apply find_cmd_none in Hno. rewrite Hno. reflexivity.
  - exact NoDup_names_cmd_table.
Qed.

Lemma cmd_help_prints_witness :
  printed (trace (snd (cmd_help None (at_args ""))))
    = ["help - Display information about all supported commands" ++ LF;
       "c - Continue the execution of the program" ++ LF;
       "q - Exit NEMU" ++ LF;
       "si - Execute N step(s)" ++ LF;
       "info - Print program state" ++ LF;
       "x - Scan memory" ++ LF] /\
  printed (trace (snd (cmd_help (Some "si") (at_args "si"))))
    = ["si - Execute N step(s)" ++ LF] /\
  printed (trace (snd (cmd_help (Some "sj") (at_args "sj"))))
    = ["Unknown command 'sj'" ++ LF].
Proof.
  destruct (cmd_help_prints None (at_args "")) as (_ & Hall & _).
  destruct (cmd_help_prints (Some "si") (at_args "si")) as (_ & _ & Hone & _).
  destruct (cmd_help_prints (Some "sj") (at_args "sj"))
    as (_ & _ & _ & Hunk & _).
  rewrite (Hall eq_refl).
  rewrite (Hone (mkCmd "si" "Execute N step(s)" H_si)
             ltac:(simpl; tauto) eq_refl).
  rewrite (Hunk "sj" eq_refl ltac:(simpl; intuition discriminate)).
  repeat split.
Defined.

(** *** The tokenizer *)

Lemma strchr_space (c : ascii) : strchr " " c = Ascii.eqb c " ".
Proof. simpl. apply orb_false_r. Qed.

Lemma command_word_any_save (str save : string) :
  fst (strtok (Some str) " " save) = command_word str.
Proof. reflexivity. Qed.

Lemma tokenize_run (str : string) (s : State) :
  tokenize str s =
  (fst (tokenize str s),
   after (snd (strtok (Some str) " " EmptyString)) [] s).
Proof.
  unfold tokenize, bind, strtok_call, after. rewrite app_nil_r.
  change (strtok (Some str) " " (strtok_save s))
    with (strtok (Some str) " " EmptyString).
  destruct (strtok (Some str) " " EmptyString) as [[cmd|] save]; reflexivity.
Qed.

Lemma tokenize_any_state (str : string) (s s' : State) :
  fst (tokenize str s) = fst (tokenize str s').
Proof.
  unfold tokenize, bind, strtok_call.
  change (strtok (Some str) " " (strtok_save s))
    with (strtok (Some str) " " EmptyString).
  change (strtok (Some str) " " (strtok_save s'))
    with (strtok (Some str) " " EmptyString).
  destruct (strtok (Some str) " " EmptyString) as [[cmd|] save]; reflexivity.
Qed.

Lemma tokenize_word (str : string) (s : State) :
  option_map fst (fst (tokenize str s)) = command_word str.
Proof.
  unfold tokenize, bind, strtok_call, command_word.
  change (strtok (Some str) " " (strtok_save s))
    with (strtok (Some str) " " EmptyString).
  destruct (strtok (Some str) " " EmptyString) as [[cmd|] save]; reflexivity.
Qed.

Lemma rl_gets_line (str : string) (rest : list string) (s : State) :
  rl_gets (str :: rest) s =
  (Some str, rest, after (strtok_save s) (fetch_events str) s).
Proof.
  unfold rl_gets, fetch_events, after. run_monad.
  destruct (negb (Nat.eqb (strlen str) 0)); simpl.
  - rewrite <- app_assoc. reflexivity.
  - reflexivity.
Qed.

Lemma rl_gets_eof (s : State) :
  rl_gets [] s = (None, [], after (strtok_save s) [Readline prompt] s).
Proof. reflexivity. Qed.

Lemma command_word_nonempty (str w : string) :
  command_word str = Some w -> fetch_events str = [Readline prompt; AddHistory str].
Proof. destruct str; [discriminate|reflexivity]. Qed.

(** *** One iteration of the loop *)

Section Iteration.

Variable device : bool.
Variable table : list cmd_entry.
Variable call : handler_id -> option string -> M Z.

Lemma loop_body_blank (str : string) (s : State) :
  command_word str = None ->
  loop_body device table call str s = (true, after EmptyString [] s).
Proof.
  intros Hw. unfold loop_body, bind. rewrite tokenize_run.
  pose proof (tokenize_word str s) as Ht. rewrite Hw in Ht.
  destruct (fst (tokenize str s)) as [[cmd args]|]; [discriminate|].
  unfold ret. f_equal. f_equal.
  unfold command_word in Hw. unfold strtok in *.
  cbv zeta in *.
  destruct (advance (strspn str " ") str) eqn:Hadv; [reflexivity|].
  destruct (advance _ (String _ _)); discriminate.
Qed.

Lemma loop_body_unknown (str w : string) (s : State) :
  command_word str = Some w ->
  find_cmd w table = None ->
  loop_body device table call str s =
  (true, after (snd (strtok (Some str) " " EmptyString))
               (drain_events device
                ++ [Stdout ("Unknown command '" ++ w ++ "'" ++ LF)]) s).
Proof.
  intros Hw Hfind. unfold loop_body, bind. rewrite tokenize_run.
  pose proof (tokenize_word str s) as Ht. rewrite Hw in Ht.
  destruct (fst (tokenize str s)) as [[cmd args]|]; [|discriminate].
  simpl in Ht. injection Ht as ->. rewrite Hfind.
  unfold printf, emit, ret, after, drain_events.
  destruct device; simpl; rewrite app_nil_r, <- ?app_assoc; reflexivity.
Qed.

Lemma loop_body_found
  (str w : string) (args : option string) (e : cmd_entry) (s : State) :
  fst (tokenize str s) = Some (w, args) ->
  find_cmd w table = Some e ->
  loop_body device table call str s =
  (negb (fst (call (handler e) args
                (after (snd (strtok (Some str) " " EmptyString))
                       (drain_events device ++ [Invoke (handler e) args]) s))
         <? 0),
   snd (call (handler e) args
          (after (snd (strtok (Some str) " " EmptyString))
                 (drain_events device ++ [Invoke (handler e) args]) s))).
Proof.
  intros Ht Hfind. unfold loop_body, bind. rewrite tokenize_run, Ht, Hfind.
  unfold emit, ret, after, drain_events.
  destruct device; simpl; rewrite app_nil_r, <- ?app_assoc; simpl;
    (destruct (call (handler e) args _) as [r s2]; simpl;
     destruct (r <? 0); reflexivity).
Qed.

End Iteration.

Lemma after_after (save0 save : string) (t0 t : list event) (s : State) :
  after save t (after save0 t0 s) = after save (t0 ++ t) s.
Proof. unfold after. simpl. rewrite <- app_assoc. reflexivity. Qed.

Lemma repl_step
  (device : bool) (table : list cmd_entry)
  (call : handler_id -> option string -> M Z)
  (str : string) (rest : list string) (s : State) :
  repl device table call (str :: rest) s =
  if fst (loop_body device table call str (after (strtok_save s) (fetch_events str) s))
  then repl device table call rest
         (snd (loop_body device table call str
                 (after (strtok_save s) (fetch_events str) s)))
  else (rest, snd (loop_body device table call str
                     (after (strtok_save s) (fetch_events str) s))).
Proof.
  cbn [repl]. rewrite rl_gets_line. cbn [snd].
  destruct (loop_body device table call str _) as [[|] s']; reflexivity.
Qed.

(** C2.  A line whose command word is found in the table makes the loop
    call the row's handler.  When the handler's status is negative the loop
    returns at once: the lines after this one stay unread and the final
    state is the one the handler left.  When the status is zero or positive
    the loop goes on with the next line.  [cmd_q] returns -1 whatever its
    argument and the state, so a line whose command word is ["q"] ends
    [sdb_mainloop] after that one fetch. *)
Theorem negative_status_ends_loop :
  (forall (device : bool) (table : list cmd_entry)
          (call : handler_id -> option string -> M Z)
          (str : string) (rest : list string) (s : State)
          (w : string) (args : option string) (e : cmd_entry),
     fst (tokenize str s) = Some (w, args) ->
     find_cmd w table = Some e ->
     let at_call :=
       after (snd (strtok (Some str) " " EmptyString))
             (fetch_events str ++ drain_events device
              ++ [Invoke (handler e) args]) s in
     (fst (call (handler e) args at_call) < 0 ->
        repl device table call (str :: rest) s
          = (rest, snd (call (handler e) args at_call))) /\
     (0 <= fst (call (handler e) args at_call) ->
        repl device table call (str :: rest) s
          = repl device table call rest (snd (call (handler e) args at_call)))) /\
  (forall (args : option string) (s : State), fst (cmd_q args s) = -1) /\
  (forall (E : Collaborators) (str : string) (rest : list string) (s : State),
     is_batch_mode s = false ->
     command_word str = Some "q" ->
     fst (sdb_mainloop E (str :: rest) s) = rest /\
     fetches (trace (snd (sdb_mainloop E (str :: rest) s)))
       = (fetches (trace s) + 1)%nat).
Proof.
  split; [|split].
  - intros device table call str rest s w args e Htok Hfind at_call.
    rewrite repl_step.
    rewrite (loop_body_found device table call str w args e _
               (eq_trans (tokenize_any_state str _ s) Htok) Hfind).
    rewrite after_after. fold at_call. cbn [fst snd].
    split; intros Hr.
    + apply Z.ltb_lt in Hr. rewrite Hr. reflexivity.
    + apply Z.ltb_ge in Hr. rewrite Hr. reflexivity.
  - intros args s. rewrite cmd_q_run. reflexivity.
  - intros E str rest s Hmode Hq. unfold sdb_mainloop. rewrite Hmode.
    rewrite repl_step.
    pose proof (tokenize_word str (after (strtok_save s) (fetch_events str) s))
      as Hw.
    rewrite Hq in Hw.
    destruct (fst (tokenize str (after (strtok_save s) (fetch_events str) s)))
      as [[w args]|] eqn:Htok; [|discriminate].
    simpl in Hw. injection Hw as ->.
    rewrite (loop_body_found (CONFIG_DEVICE E) cmd_table (call_handler E)
               str "q" args (mkCmd "q" "Exit NEMU" H_q) _ Htok eq_refl).
    rewrite after_after. cbn [handler call_handler].
    rewrite cmd_q_run. cbn [fst snd Z.ltb Z.compare negb trace after machine].
    split; [reflexivity|].
    rewrite (command_word_nonempty str "q" Hq).
    rewrite !fetches_app. unfold drain_events.
    destruct (CONFIG_DEVICE E); cbn; rewrite Nat.add_0_r; reflexivity.
Qed.

Lemma negative_status_ends_loop_witness :
  fst (sdb_mainloop sample_E ["q"; "si 2"] (initial (halted 0))) = ["si 2"] /\
  fst (sdb_mainloop sample_E ["si 2"; "q"; "help"] (initial (halted 0)))
    = ["help"].
Proof.
  destruct negative_status_ends_loop as (Hloop & _ & Hquit).
  split.
  - exact (proj1 (Hquit sample_E "q" ["si 2"] (initial (halted 0))
                    eq_refl eq_refl)).
  - unfold sdb_mainloop. cbn [is_batch_mode initial].
    destruct (Hloop (CONFIG_DEVICE sample_E) cmd_table (call_handler sample_E)
                "si 2" ["q"; "help"]
                (initial (halted 0)) "si" (Some "2")
                (mkCmd "si" "Execute N step(s)" H_si) eq_refl eq_refl)
      as [_ Hgo].
    rewrite (Hgo ltac:(vm_compute; discriminate)).
    reflexivity.
Defined.

(** C4, as the code has it.  In interactive mode, a line whose command
    word, the first token [strtok(str, " ")] finds, delimited by the space
    character alone, is the name of no row of [cmd_table] makes the
    loop print ["Unknown command '<word>'"] and go on with the next line.
    Nothing but the fetch of the line, the draining of the device event queue
    in a build with [CONFIG_DEVICE], and that text is added to the trace: no
    handler is called, and the emulator is left as it was. *)
Theorem unknown_command_reported
  (E : Collaborators) (str : string) (rest : list string) (s : State)
  (w : string) :
  is_batch_mode s = false ->
  command_word str = Some w ->
  ~ In w (names cmd_table) ->
  exists s' : State,
    sdb_mainloop E (str :: rest) s = sdb_mainloop E rest s' /\
    trace s' = (trace s ++
                [Readline prompt; AddHistory str] ++
                drain_events (CONFIG_DEVICE E) ++
                [Stdout ("Unknown command '" ++ w ++ "'" ++ LF)%string])%list /\
    printed (trace s')
      = (printed (trace s)
         ++ [("Unknown command '" ++ w ++ "'" ++ LF)%string])%list /\
    invoked (trace s') = invoked (trace s) /\
    machine s' = machine s /\
    is_batch_mode s' = false.
Proof.
  intros Hmode Hw Hno. apply find_cmd_none in Hno.
  exists (after (snd (strtok (Some str) " " EmptyString))
            ([Readline prompt; AddHistory str] ++
             drain_events (CONFIG_DEVICE E) ++
             [Stdout ("Unknown command '" ++ w ++ "'" ++ LF)]) s).
  unfold sdb_mainloop at 1. rewrite Hmode, repl_step.
  rewrite (loop_body_unknown (CONFIG_DEVICE E) cmd_table (call_handler E)
             str w _ Hw Hno).
  rewrite after_after, (command_word_nonempty str w Hw). cbn [fst snd].
  split; [|split; [|split; [|split; [|split]]]].
  - unfold sdb_mainloop. cbn [is_batch_mode after]. rewrite Hmode. reflexivity.
  - reflexivity.
  - cbn [trace after]. unfold printed, drain_events. rewrite flat_map_app.
    destruct (CONFIG_DEVICE E); reflexivity.
  - cbn [trace after]. rewrite invoked_app. unfold drain_events.
    destruct (CONFIG_DEVICE E); cbn; apply app_nil_r.
  - reflexivity.
  - exact Hmode.
Qed.

Lemma unknown_command_reported_witness :
  printed (trace (snd (sdb_mainloop sample_E ["quit now"] (initial (halted 0)))))
    = ["Unknown command 'quit'" ++ LF] /\
  invoked (trace (snd (sdb_mainloop sample_E ["quit now"] (initial (halted 0)))))
    = [].
Proof.
  destruct (unknown_command_reported sample_E "quit now" [] (initial (halted 0))
              "quit" eq_refl eq_refl ltac:(simpl; intuition discriminate))
    as (s' & Hloop & _ & Hprinted & Hinv & _ & Hmode).
  rewrite Hloop. unfold sdb_mainloop. rewrite Hmode.
  cbn [repl snd]. rewrite rl_gets_eof. cbn [snd trace after].
  unfold invoked, printed. rewrite !flat_map_app.
  fold (invoked (trace s')). fold (printed (trace s')).
  rewrite Hinv, Hprinted. split; reflexivity.
Defined.

(** C4, as stated, fails when white space other than the space character
    delimits the word.  The first word of the line ["foo<tab>bar"] delimited
    by white space is ["foo"], the name of no row, yet the loop prints
    ["Unknown command 'foo<tab>bar'"] and not ["Unknown command 'foo'"]. *)
Lemma unknown_command_quotes_the_space_delimited_word :
  first_ws_word ("foo" ++ TAB ++ "bar") = Some "foo" /\
  ~ In "foo" (names cmd_table) /\
  printed (trace (snd (sdb_mainloop sample_E ["foo" ++ TAB ++ "bar"]
                         (initial (halted 0)))))
    = ["Unknown command 'foo" ++ TAB ++ "bar'" ++ LF] /\
  printed (trace (snd (sdb_mainloop sample_E ["foo" ++ TAB ++ "bar"]
                         (initial (halted 0)))))
    <> ["Unknown command 'foo'" ++ LF].
Proof.
  split; [reflexivity|]. split; [simpl; intuition discriminate|].
  split; [reflexivity|]. vm_compute. discriminate.
Qed.

(** *** The loop over [cmd_table] *)

Lemma handler_q_name (w : string) (e : cmd_entry) :
  find_cmd w cmd_table = Some e -> handler e = H_q -> w = "q".
Proof.
  intros Hfind Hq. apply find_cmd_some in Hfind. destruct Hfind as [Hin <-].
  unfold cmd_table in Hin. simpl in Hin.
  destruct Hin as [<-|[<-|[<-|[<-|[<-|[<-|[]]]]]]];
    try discriminate Hq; reflexivity.
Qed.

(** One iteration keeps [is_batch_mode], only appends to the trace, fetches
    nothing, and says [return] only on the command word ["q"]. *)
Lemma iteration_frames (E : Collaborators) (str : string) (s : State) :
  (is_batch_mode (snd (loop_body (CONFIG_DEVICE E) cmd_table (call_handler E) str s))
     = is_batch_mode s /\
   exists t, trace (snd (loop_body (CONFIG_DEVICE E) cmd_table (call_handler E) str s))
             = (trace s ++ t)%list /\ fetches t = O) /\
  (fst (loop_body (CONFIG_DEVICE E) cmd_table (call_handler E) str s) = false ->
   command_word str = Some "q").
Proof.
  destruct (command_word str) as [w|] eqn:Hw.
  - destruct (find_cmd w cmd_table) as [e|] eqn:Hfind.
    + pose proof (tokenize_word str s) as Ht. rewrite Hw in Ht.
      destruct (fst (tokenize str s)) as [[w' args]|] eqn:Htok; [|discriminate].
      simpl in Ht. injection Ht as ->.
      rewrite (loop_body_found (CONFIG_DEVICE E) cmd_table (call_handler E)
                 str w args e s Htok Hfind).
      cbn [fst snd]. split.
      * destruct (call_handler_frames E (handler e) args
                    (after (snd (strtok (Some str) " " EmptyString))
                           (drain_events (CONFIG_DEVICE E)
                            ++ [Invoke (handler e) args]) s))
          as [Hb (t & Ht & Hf & _)].
        split; [exact Hb|]. rewrite Ht. cbn [trace after].
        rewrite <- app_assoc. eexists. split; [reflexivity|].
        rewrite !fetches_app, Hf. unfold drain_events.
        destruct (CONFIG_DEVICE E); reflexivity.
      * rewrite call_handler_status.
        destruct (handler e) eqn:Hh; cbn; try discriminate.
        intros _. f_equal. exact (handler_q_name w e Hfind Hh).
    + rewrite (loop_body_unknown (CONFIG_DEVICE E) cmd_table (call_handler E)
                 str w s Hw Hfind).
      cbn [fst snd trace is_batch_mode after].
      split; [|discriminate]. split; [reflexivity|].
      eexists. split; [reflexivity|]. unfold drain_events.
      destruct (CONFIG_DEVICE E); reflexivity.
  - rewrite (loop_body_blank (CONFIG_DEVICE E) cmd_table (call_handler E)
               str s Hw).
    cbn [fst snd trace is_batch_mode after].
    split; [|discriminate]. split; [reflexivity|].
    eexists. split; reflexivity.
Qed.

Lemma fetches_fetch_events (str : string) : fetches (fetch_events str) = 1%nat.
Proof.
  unfold fetch_events. destruct (negb (Nat.eqb (strlen str) 0)); reflexivity.
Qed.

(** The read loop keeps [is_batch_mode], starts with a fetch, and ends
    either right after a line whose command word is ["q"] or at the end of
    the input, every line and the end of input having been fetched. *)
Lemma repl_exit (E : Collaborators) (input : list string) (s : State) :
  is_batch_mode (snd (repl (CONFIG_DEVICE E) cmd_table (call_handler E) input s))
    = is_batch_mode s /\
  (exists t, trace (snd (repl (CONFIG_DEVICE E) cmd_table (call_handler E) input s))
             = (trace s ++ Readline prompt :: t)%list) /\
  ((exists pre line,
      input = (pre ++ line :: fst (repl (CONFIG_DEVICE E) cmd_table (call_handler E) input s))%list
      /\ command_word line = Some "q") \/
   (fst (repl (CONFIG_DEVICE E) cmd_table (call_handler E) input s) = [] /\
    fetches (trace (snd (repl (CONFIG_DEVICE E) cmd_table (call_handler E) input s)))
      = (fetches (trace s) + List.length input + 1)%nat)).
Proof.
  revert s. induction input as [|str rest IH]; intros s.
  - cbn [repl]. rewrite rl_gets_eof. cbn [fst snd]. split; [reflexivity|].
    split; [exists []; reflexivity|]. right. split; [reflexivity|].
    cbn [trace after]. rewrite fetches_app. cbn. lia.
  - rewrite repl_step.
    destruct (iteration_frames E str (after (strtok_save s) (fetch_events str) s))
      as [[Hb (t & Ht & Hf)] Hq].
    cbn [is_batch_mode after trace] in Hb, Ht.
    destruct (fst (loop_body (CONFIG_DEVICE E) cmd_table (call_handler E) str _)) eqn:Hgo.
    + destruct (IH (snd (loop_body (CONFIG_DEVICE E) cmd_table (call_handler E) str
                           (after (strtok_save s) (fetch_events str) s))))
        as (Hb' & (t' & Ht') & Hexit).
      split; [congruence|]. split.
      * rewrite Ht', Ht. unfold fetch_events. simpl.
        rewrite <- !app_assoc. simpl. eexists. reflexivity.
      * destruct Hexit as [(pre & line & Hin & Hline)|[Hnil Hcount]].
        -- left. exists (str :: pre), line. split; [|exact Hline].
           simpl. f_equal. exact Hin.
        -- right. split; [exact Hnil|].
           rewrite Hcount, Ht, !fetches_app, Hf, fetches_fetch_events.
           simpl. lia.
    + cbn [fst snd]. split; [exact Hb|]. split.
      * rewrite Ht. unfold fetch_events. simpl.
        rewrite <- !app_assoc. simpl. eexists. reflexivity.
      * left. exists [], str. split; [reflexivity|]. exact (Hq eq_refl).
Qed.

(** C5.  In batch mode [sdb_mainloop] asks the terminal for nothing: the
    input is left whole, and all it does is call [cmd_c] once, with a NULL
    argument, which calls [cpu_exec(-1)] once.  In interactive mode that call
    is not made: [sdb_mainloop] is the read loop, and the first thing it does
    is fetch a line. *)
Theorem batch_mode_runs_cmd_c_once
  (E : Collaborators) (input : list string) (s : State) :
  (is_batch_mode s = true ->
     fst (sdb_mainloop E input s) = input /\
     trace (snd (sdb_mainloop E input s))
       = (trace s ++ [Invoke H_c None; CpuExec (2 ^ 64 - 1)])%list /\
     fetches (trace (snd (sdb_mainloop E input s))) = fetches (trace s) /\
     machine (snd (sdb_mainloop E input s))
       = cpu_exec E (2 ^ 64 - 1) (machine s)) /\
  (is_batch_mode s = false ->
     sdb_mainloop E input s = repl (CONFIG_DEVICE E) cmd_table (call_handler E) input s /\
     exists t, trace (snd (sdb_mainloop E input s))
               = (trace s ++ Readline prompt :: t)%list).
Proof.
  unfold sdb_mainloop. split; intros Hmode; rewrite Hmode.
  - unfold bind, emit. rewrite cmd_c_run. cbn [fst snd trace machine].
    rewrite <- app_assoc. repeat split.
    rewrite fetches_app. cbn. lia.
  - split; [reflexivity|]. apply repl_exit.
Qed.

Lemma batch_mode_runs_cmd_c_once_witness :
  sdb_mainloop sample_E ["q"] (snd (sdb_set_batch_mode (initial (halted 0))))
    = (["q"],
       {| machine := cpu_exec sample_E (2 ^ 64 - 1) (halted 0);
          is_batch_mode := true; strtok_save := EmptyString;
          trace := [Invoke H_c None; CpuExec (2 ^ 64 - 1)] |}) /\
  fst (sdb_mainloop sample_E ["q"] (initial (halted 0))) = [].
Proof.
  destruct (batch_mode_runs_cmd_c_once sample_E ["q"]
              (snd (sdb_set_batch_mode (initial (halted 0)))))
    as [Hbatch _].
  destruct (batch_mode_runs_cmd_c_once sample_E ["q"] (initial (halted 0)))
    as [_ Hinter].
  destruct (Hbatch eq_refl) as (Hin & Htr & _ & Hm).
  destruct (Hinter eq_refl) as [Hloop _].
  rewrite Hloop. split; [|reflexivity].
  destruct (sdb_mainloop sample_E ["q"]
              (snd (sdb_set_batch_mode (initial (halted 0)))))
    as [unread [m b sv tr]] eqn:Hrun.
  cbn [fst snd trace machine] in Hin, Htr, Hm. subst unread tr m.
  vm_compute in Hrun. injection Hrun as <- <-. reflexivity.
Defined.

(** C9.  Every handler but [cmd_q] returns 0, whatever its argument and the
    state; every handler is the handler of a row of [cmd_table].  So in
    interactive mode [sdb_mainloop] ends in one of two ways: right after a
    line whose command word is ["q"], the lines after it unread, or at the
    end of the input, every line and the end of input having been fetched. *)
Theorem only_q_or_eof_ends_loop :
  (forall (E : Collaborators) (h : handler_id) (args : option string)
          (s : State),
     h <> H_q -> fst (call_handler E h args s) = 0) /\
  (forall h : handler_id, In h (map handler cmd_table)) /\
  (forall (E : Collaborators) (input : list string) (s : State),
     is_batch_mode s = false ->
     (exists pre line,
        input = (pre ++ line :: fst (sdb_mainloop E input s))%list /\
        command_word line = Some "q") \/
     (fst (sdb_mainloop E input s) = [] /\
      fetches (trace (snd (sdb_mainloop E input s)))
        = (fetches (trace s) + List.length input + 1)%nat)).
Proof.
  split; [|split].
  - intros E h args s Hh. rewrite call_handler_status.
    destruct h; try reflexivity. contradiction.
  - intros h. destruct h; simpl; tauto.
  - intros E input s Hmode. unfold sdb_mainloop. rewrite Hmode.
    apply repl_exit.
Qed.

Lemma only_q_or_eof_ends_loop_witness :
  fst (call_handler sample_E H_x (Some "1") (at_args "1")) = 0 /\
  fst (sdb_mainloop sample_E ["help"; "info r"] (initial (halted 0))) = [] /\
  fetches (trace (snd (sdb_mainloop sample_E ["help"; "info r"]
                         (initial (halted 0))))) = 3%nat.
Proof.
  destruct only_q_or_eof_ends_loop as (Hzero & _ & Hexit).
  split.
  - apply Hzero. discriminate.
  - destruct (Hexit sample_E ["help"; "info r"] (initial (halted 0)) eq_refl)
      as [(pre & line & Hin & Hq)|[Hnil Hcount]].
    + split; vm_compute; reflexivity.
    + split; [exact Hnil|exact Hcount].
Defined.

(** C10.  [is_batch_mode] is false at program start.  [sdb_set_batch_mode]
    makes it true and changes nothing else, so a second call changes
    nothing.  The handlers, [rl_gets], [init_sdb] and [sdb_mainloop] leave
    the flag as they found it: once true it stays true. *)
Theorem batch_mode_flag_monotone :
  (forall m : Machine, is_batch_mode (initial m) = false) /\
  (forall s : State, is_batch_mode (snd (sdb_set_batch_mode s)) = true) /\
  (forall s : State,
     sdb_set_batch_mode (snd (sdb_set_batch_mode s)) = sdb_set_batch_mode s) /\
  (forall (E : Collaborators) (h : handler_id) (args : option string)
          (s : State),
     is_batch_mode (snd (call_handler E h args s)) = is_batch_mode s) /\
  (forall (input : list string) (s : State),
     is_batch_mode (snd (rl_gets input s)) = is_batch_mode s) /\
  (forall s : State, is_batch_mode (snd (init_sdb s)) = is_batch_mode s) /\
  (forall (E : Collaborators) (input : list string) (s : State),
     is_batch_mode (snd (sdb_mainloop E input s)) = is_batch_mode s).
Proof.
  repeat split.
  - intros E h args s. apply call_handler_frames.
  - intros [|str rest] s; [reflexivity|]. rewrite rl_gets_line. reflexivity.
  - intros E input s. unfold sdb_mainloop.
    destruct (is_batch_mode s) eqn:Hmode.
    + unfold bind, emit. rewrite cmd_c_run. exact Hmode.
    + rewrite <- Hmode. apply repl_exit.
Qed.

(** *** What the tokenizer makes of a line *)

Lemma only_spaces_no_word (str : string) :
  only_spaces str = true -> command_word str = None.
Proof.
  intros H. unfold command_word, strtok. cbv zeta.
  assert (Hadv : advance (strspn str " ") str = EmptyString).
  { induction str as [|c str IH]; [reflexivity|].
    simpl in H. apply andb_prop in H. destruct H as [Hc Hs].
    cbn [strspn]. rewrite strchr_space, Hc. cbn [advance]. auto. }
  rewrite Hadv. reflexivity.
Qed.

Lemma no_space_head (c : ascii) (w : string) :
  no_space (String c w) = true -> strchr " " c = false.
Proof.
  intros H. simpl in H. apply andb_prop in H. destruct H as [Hc _].
  rewrite strchr_space. apply negb_true_iff. exact Hc.
Qed.

Lemma length_append (a b : string) :
  strlen (a ++ b) = (strlen a + strlen b)%nat.
Proof. induction a as [|c a IH]; simpl; [reflexivity|]. f_equal. exact IH. Qed.

Lemma strlen_spaces (k : nat) : strlen (spaces k) = k.
Proof. induction k; simpl; congruence. Qed.

Lemma strspn_spaces (k : nat) (c : ascii) (w : string) :
  strchr " " c = false -> strspn (spaces k ++ String c w) " " = k.
Proof.
  intros Hc. induction k as [|k IH]; simpl.
  - rewrite strchr_space in Hc. rewrite Hc. reflexivity.
  - f_equal. exact IH.
Qed.

Lemma advance_spaces (k : nat) (w : string) : advance k (spaces k ++ w) = w.
Proof. induction k; simpl; auto. Qed.

Lemma strcspn_word (w r : string) :
  no_space w = true -> strcspn (w ++ String " " r) " " = strlen w.
Proof.
  induction w as [|c w IH]; intros H; [reflexivity|].
  pose proof (no_space_head c w H) as Hc.
  simpl in H. apply andb_prop in H. destruct H as [_ Hw].
  cbn [append strcspn]. rewrite Hc. simpl. f_equal. auto.
Qed.

Lemma strcspn_word_end (w : string) :
  no_space w = true -> strcspn w " " = strlen w.
Proof.
  induction w as [|c w IH]; intros H; [reflexivity|].
  pose proof (no_space_head c w H) as Hc.
  simpl in H. apply andb_prop in H. destruct H as [_ Hw].
  cbn [strcspn]. rewrite Hc. simpl. f_equal. auto.
Qed.

Lemma advance_append (w r : string) : advance (strlen w) (w ++ r) = r.
Proof. induction w; simpl; auto. Qed.

Lemma advance_all (w : string) : advance (strlen w) w = EmptyString.
Proof. induction w; simpl; auto. Qed.

Lemma take_append (w r : string) : take (strlen w) (w ++ r) = w.
Proof. induction w as [|c w IH]; simpl; [destruct r|]; congruence. Qed.

Lemma advance_plus (n m : nat) (s : string) :
  advance (n + m) s = advance m (advance n s).
Proof.
  revert s. induction n as [|n IH]; intros s; [reflexivity|].
  destruct s; simpl; [destruct m; reflexivity|apply IH].
Qed.

Lemma advance_inside (n : nat) (s : string) :
  (n < strlen s)%nat -> advance n s <> EmptyString.
Proof.
  revert s. induction n as [|n IH]; intros [|c s] H; simpl in *;
    try lia; try discriminate.
  apply IH. lia.
Qed.

(** The word alone on the line, after any number of spaces. *)
Lemma tokenize_word_alone (k : nat) (w : string) (s : State) :
  w <> EmptyString -> no_space w = true ->
  fst (tokenize (spaces k ++ w) s) = Some (w, None).
Proof.
  intros Hne Hw. destruct w as [|c w]; [contradiction|].
  pose proof (no_space_head c w Hw) as Hc.
  unfold tokenize, bind, strtok_call, strtok. cbv zeta.
  rewrite (strspn_spaces k c w Hc), advance_spaces.
  rewrite (strcspn_word_end _ Hw), advance_all.
  cbn [fst ret]. rewrite length_append, strlen_spaces.
  replace (Nat.leb _ _) with true; [reflexivity|].
  symmetry. apply Nat.leb_le. lia.
Qed.

(** The word followed by a space and the rest [r] of the line. *)
Lemma tokenize_word_rest (k : nat) (w r : string) (s : State) :
  w <> EmptyString -> no_space w = true ->
  fst (tokenize (spaces k ++ w ++ String " " r) s)
    = Some (w, match r with EmptyString => None | _ => Some r end).
Proof.
  intros Hne Hw. destruct w as [|c w]; [contradiction|].
  pose proof (no_space_head c w Hw) as Hc.
  unfold tokenize, bind, strtok_call, strtok. cbv zeta.
  change (spaces k ++ String c w ++ String " " r)
    with (spaces k ++ String c (w ++ String " " r)).
  rewrite (strspn_spaces k c _ Hc), advance_spaces.
  change (String c (w ++ String " " r)) with (String c w ++ String " " r).
  rewrite (strcspn_word _ r Hw), advance_append, take_append.
  cbn [fst ret]. rewrite !length_append, strlen_spaces.
  rewrite !advance_plus, advance_spaces, advance_append.
  cbn [strlen String.length].
  destruct r as [|d r].
  - replace (Nat.leb _ _) with true; [reflexivity|].
    symmetry. apply Nat.leb_le. simpl. lia.
  - replace (Nat.leb _ _) with false; [reflexivity|].
    symmetry. apply Nat.leb_gt. simpl. lia.
Qed.

Lemma tokenize_args_nonempty
  (str w a : string) (s : State) :
  fst (tokenize str s) = Some (w, Some a) -> a <> EmptyString.
Proof.
  unfold tokenize, bind, strtok_call.
  destruct (strtok (Some str) " " (strtok_save s)) as [[cmd|] save];
    cbn [fst ret]; [|discriminate].
  destruct (Nat.leb (strlen str) (strspn str " " + strlen cmd + 1)) eqn:Hle;
    [discriminate|].
  intros H. injection H as _ <-. apply advance_inside.
  apply Nat.leb_gt in Hle. exact Hle.
Qed.

Lemma loop_body_invokes
  (E : Collaborators) (str w : string) (args : option string) (e : cmd_entry)
  (s : State) :
  fst (tokenize str s) = Some (w, args) ->
  find_cmd w cmd_table = Some e ->
  invoked (trace (snd (loop_body (CONFIG_DEVICE E) cmd_table (call_handler E) str s)))
    = (invoked (trace s) ++ [(handler e, args)])%list.
Proof.
  intros Htok Hfind.
  rewrite (loop_body_found (CONFIG_DEVICE E) cmd_table (call_handler E)
             str w args e s Htok Hfind).
  cbn [snd].
  destruct (call_handler_frames E (handler e) args
              (after (snd (strtok (Some str) " " EmptyString))
                     (drain_events (CONFIG_DEVICE E)
                      ++ [Invoke (handler e) args]) s))
    as [_ (t & Ht & _ & Hi)].
  rewrite Ht. cbn [trace after]. rewrite !invoked_app, Hi, app_nil_r.
  unfold drain_events. destruct (CONFIG_DEVICE E); reflexivity.
Qed.

Lemma cmd_table_names_are_words (e : cmd_entry) :
  In e cmd_table -> name e <> EmptyString /\ no_space (name e) = true.
Proof.
  unfold cmd_table. simpl.
  intros [<-|[<-|[<-|[<-|[<-|[<-|[]]]]]]]; split; (discriminate || reflexivity).
Qed.

(** C6, as the code has it.  In interactive mode a line that is empty or
    made of space characters only is skipped: the loop goes on with the next
    line, and the fetch of the line is all that happened, nothing printed and
    no handler called.  When the command word ends the line, or only the one
    space that ends the word follows it, the handler is called with a NULL
    [args].  A handler is never called with an empty string for [args]. *)
Theorem blank_line_skipped_and_lone_word_has_null_args :
  (forall (E : Collaborators) (str : string) (rest : list string) (s : State),
     is_batch_mode s = false ->
     only_spaces str = true ->
     exists s' : State,
       sdb_mainloop E (str :: rest) s = sdb_mainloop E rest s' /\
       trace s' = (trace s ++ fetch_events str)%list /\
       printed (trace s') = printed (trace s) /\
       invoked (trace s') = invoked (trace s) /\
       machine s' = machine s /\
       is_batch_mode s' = false) /\
  (forall (k : nat) (w : string) (s : State),
     w <> EmptyString -> no_space w = true ->
     fst (tokenize (spaces k ++ w) s) = Some (w, None) /\
     fst (tokenize (spaces k ++ w ++ " ") s) = Some (w, None)) /\
  (forall (E : Collaborators) (k : nat) (e : cmd_entry) (s : State),
     In e cmd_table ->
     invoked (trace (snd (loop_body (CONFIG_DEVICE E) cmd_table (call_handler E)
                            (spaces k ++ name e) s)))
       = (invoked (trace s) ++ [(handler e, None)])%list /\
     invoked (trace (snd (loop_body (CONFIG_DEVICE E) cmd_table (call_handler E)
                            (spaces k ++ name e ++ " ") s)))
       = (invoked (trace s) ++ [(handler e, None)])%list) /\
  (forall (str w a : string) (s : State),
     fst (tokenize str s) = Some (w, Some a) -> a <> EmptyString).
Proof.
  split; [|split; [|split]].
  - intros E str rest s Hmode Hblank.
    exists (after EmptyString (fetch_events str) s).
    unfold sdb_mainloop at 1. rewrite Hmode, repl_step.
    rewrite (loop_body_blank (CONFIG_DEVICE E) cmd_table (call_handler E)
               str _ (only_spaces_no_word str Hblank)).
    rewrite after_after, app_nil_r. cbn [fst snd].
    split; [|split; [|split; [|split; [|split]]]].
    + unfold sdb_mainloop. cbn [is_batch_mode after]. rewrite Hmode.
      reflexivity.
    + reflexivity.
    + cbn [trace after]. unfold printed, fetch_events.
      rewrite flat_map_app.
      destruct (negb (Nat.eqb (strlen str) 0)); cbn; apply app_nil_r.
    + cbn [trace after]. rewrite invoked_app. unfold fetch_events.
      destruct (negb (Nat.eqb (strlen str) 0)); cbn; apply app_nil_r.
    + reflexivity.
    + exact Hmode.
  - intros k w s Hne Hw. split.
    + apply tokenize_word_alone; assumption.
    + apply (tokenize_word_rest k w EmptyString s Hne Hw).
  - intros E k e s Hin.
    destruct (cmd_table_names_are_words e Hin) as [Hne Hw].
    split.
    + apply (loop_body_invokes E _ (name e) None e s).
      * apply tokenize_word_alone; assumption.
      * apply find_cmd_row. exact Hin.
    + apply (loop_body_invokes E _ (name e) None e s).
      * apply (tokenize_word_rest k (name e) EmptyString s Hne Hw).
      * apply find_cmd_row. exact Hin.
  - exact tokenize_args_nonempty.
Qed.

Lemma blank_line_skipped_and_lone_word_has_null_args_witness :
  printed (trace (snd (sdb_mainloop sample_E ["   "] (initial (halted 0))))) = []
  /\ fst (tokenize "  si" (initial (halted 0))) = Some ("si", None)
  /\ invoked (trace (snd (loop_body (CONFIG_DEVICE sample_E) cmd_table (call_handler sample_E) "help "
                            (initial (halted 0)))))
     = [(H_help, None)].
Proof.
  destruct blank_line_skipped_and_lone_word_has_null_args
    as (Hblank & Hword & Hcall & _).
  destruct (Hblank sample_E "   " [] (initial (halted 0)) eq_refl eq_refl)
    as (s' & Hloop & _ & Hprinted & _ & _ & Hmode).
  split; [|split].
  - rewrite Hloop. unfold sdb_mainloop. rewrite Hmode.
    cbn [repl]. rewrite rl_gets_eof. cbn [snd trace after].
    unfold printed. rewrite flat_map_app. fold (printed (trace s')).
    rewrite Hprinted. reflexivity.
  - exact (proj1 (Hword 2%nat "si" (initial (halted 0))
                    ltac:(discriminate) eq_refl)).
  - exact (proj2 (Hcall sample_E 0%nat
                    (mkCmd "help"
                       "Display information about all supported commands"
                       H_help)
                    (initial (halted 0)) ltac:(simpl; tauto))).
Defined.

(** C6, as stated, fails on white space other than the space character: the
    line made of one tab is all white space, and the loop takes the tab for a
    command word and prints ["Unknown command '<tab>'"]. *)
Lemma tab_line_is_not_skipped :
  only_whitespace TAB = true /\
  printed (trace (snd (sdb_mainloop sample_E [TAB] (initial (halted 0)))))
    = ["Unknown command '" ++ TAB ++ "'" ++ LF] /\
  printed (trace (snd (sdb_mainloop sample_E [TAB] (initial (halted 0)))))
    <> printed (trace (initial (halted 0))).
Proof.
  split; [reflexivity|]. split; [reflexivity|]. vm_compute. discriminate.
Qed.

(* ================================================================== *)
(** ** Further properties of the tokenizer *)

Lemma strlen_advance (n : nat) (s : string) :
  strlen (advance n s) = (strlen s - n)%nat.
Proof.
  revert s. induction n as [|n IH]; intros [|c s]; simpl; auto.
Qed.

Lemma advance_nil_length (n : nat) (s : string) :
  advance n s = EmptyString -> (strlen s <= n)%nat.
Proof.
  intros H. pose proof (strlen_advance n s) as Hl. rewrite H in Hl.
  simpl in Hl. lia.
Qed.

Lemma strspn_le (s d : string) : (strspn s d <= strlen s)%nat.
Proof.
  induction s as [|c s IH]; simpl; [lia|]. destruct (strchr d c); simpl; lia.
Qed.

Lemma strcspn_le (s d : string) : (strcspn s d <= strlen s)%nat.
Proof.
  induction s as [|c s IH]; simpl; [lia|]. destruct (strchr d c); simpl; lia.
Qed.

Lemma strlen_take (n : nat) (s : string) :
  (n <= strlen s)%nat -> strlen (take n s) = n.
Proof.
  revert s. induction n as [|n IH]; intros [|c s] H; simpl in *;
    try reflexivity; try lia.
  f_equal. apply IH. lia.
Qed.

Lemma take_all (n : nat) (s : string) :
  advance n s = EmptyString -> take n s = s.
Proof.
  revert s. induction n as [|n IH]; intros [|c s] H; simpl in *;
    try reflexivity; try discriminate.
  f_equal. auto.
Qed.

Lemma strspn_stops (s : string) (c : ascii) (r : string) :
  advance (strspn s " ") s = String c r -> strchr " " c = false.
Proof.
  induction s as [|d s IH]; [cbn; discriminate|].
  cbn [strspn]. destruct (strchr " " d) eqn:Hd; cbn [advance].
  - exact IH.
  - intros H. injection H as <- _. exact Hd.
Qed.

Lemma strspn_all_spaces (s : string) :
  advance (strspn s " ") s = EmptyString -> only_spaces s = true.
Proof.
  induction s as [|d s IH]; [reflexivity|].
  cbn [strspn]. destruct (strchr " " d) eqn:Hd; cbn [advance].
  - intros H. simpl. rewrite strchr_space in Hd. rewrite Hd. simpl. auto.
  - discriminate.
Qed.

Lemma no_space_take_strcspn (s : string) :
  no_space (take (strcspn s " ") s) = true.
Proof.
  induction s as [|c s IH]; [reflexivity|].
  cbn [strcspn]. destruct (strchr " " c) eqn:Hc; [reflexivity|].
  cbn [take no_space]. rewrite strchr_space in Hc. rewrite Hc. simpl. exact IH.
Qed.

Lemma strspn_leading_spaces (k : nat) (s : string) :
  strspn (spaces k ++ s) " " = (k + strspn s " ")%nat.
Proof. induction k as [|k IH]; simpl; [reflexivity|]. f_equal. exact IH. Qed.

(** The token [strtok(str, " ")] returns, for any line: the characters from
    the first one that is not a space up to the next space. *)
Lemma strtok_line (str : string) :
  strtok (Some str) " " EmptyString =
  match advance (strspn str " ") str with
  | EmptyString => (None, EmptyString)
  | String c r =>
      (Some (take (strcspn (String c r) " ") (String c r)),
       advance 1 (advance (strcspn (String c r) " ") (String c r)))
  end.
Proof.
  unfold strtok. cbv zeta.
  destruct (advance (strspn str " ") str) as [|c r] eqn:Hs1; [reflexivity|].
  destruct (advance (strcspn (String c r) " ") (String c r)) as [|d rest] eqn:He.
  - rewrite (take_all _ _ He). reflexivity.
  - reflexivity.
Qed.

(** What [tokenize] computes, for any line, in terms of the string at the
    first character that is not a space. *)
Lemma tokenize_line (str : string) (s : State) :
  tokenize str s =
  match advance (strspn str " ") str with
  | EmptyString => (None, after EmptyString [] s)
  | String c r =>
      let rest := advance 1 (advance (strcspn (String c r) " ") (String c r)) in
      (Some (take (strcspn (String c r) " ") (String c r),
             match rest with EmptyString => None | _ => Some rest end),
       after rest [] s)
  end.
Proof.
  unfold tokenize, bind, strtok_call, after. rewrite app_nil_r.
  change (strtok (Some str) " " (strtok_save s))
    with (strtok (Some str) " " EmptyString).
  rewrite strtok_line.
  destruct (advance (strspn str " ") str) as [|c r] eqn:Hs1; [reflexivity|].
  cbv zeta. unfold ret.
  set (s1 := String c r) in *. set (n := strcspn s1 " ").
  pose proof (strcspn_le s1 " ") as Hn. fold n in Hn.
  pose proof (strspn_le str " ") as Hn0.
  pose proof (strlen_advance (strspn str " ") str) as Hl1. rewrite Hs1 in Hl1.
  pose proof (strlen_advance n s1) as Hle.
  rewrite (strlen_take n s1 Hn).
  replace (strspn str " " + n + 1)%nat with (strspn str " " + (n + 1))%nat by lia.
  rewrite !advance_plus, Hs1. clearbody n. clearbody s1.
  destruct (advance n s1) as [|d rest] eqn:He.
  - cbn [advance].
    replace (Nat.leb _ _) with true; [reflexivity|].
    symmetry. apply Nat.leb_le. unfold strlen in *. simpl in Hle. lia.
  - cbn [advance].
    destruct rest as [|d' rest'].
    + replace (Nat.leb _ _) with true; [reflexivity|].
      symmetry. apply Nat.leb_le. unfold strlen in *. simpl in Hle. lia.
    + replace (Nat.leb _ _) with false; [reflexivity|].
      symmetry. apply Nat.leb_gt. unfold strlen in *. simpl in Hle. lia.
Qed.

(** X1.  After the loop has split a line, [strtok]'s save pointer is at
    [args]: it points at the string [args] when [args] is not NULL and at an
    empty string when it is.  So the token a handler gets from
    [strtok(NULL, " ")] is the first token of [args], though no handler reads
    its parameter. *)
Theorem tokenize_leaves_strtok_at_args (str : string) (s : State) :
  strtok_save (snd (tokenize str s))
    = match fst (tokenize str s) with
      | Some (_, Some a) => a
      | _ => EmptyString
      end /\
  next_token (snd (tokenize str s))
    = match fst (tokenize str s) with
      | Some (_, Some a) => command_word a
      | _ => None
      end.
Proof.
  rewrite tokenize_line.
  destruct (advance (strspn str " ") str) as [|c r]; [split; reflexivity|].
  cbv zeta. cbn [fst snd after strtok_save]. unfold next_token.
  cbn [strtok_save].
  destruct (advance 1 (advance (strcspn (String c r) " ") (String c r)));
    split; reflexivity.
Qed.

(** X2.  Spaces in front of a line change nothing but the text kept in the
    history: the command word, [args], the state of [strtok], and so the
    whole iteration of the loop are those of the line without them. *)
Theorem leading_spaces_are_ignored
  (device : bool) (table : list cmd_entry)
  (call : handler_id -> option string -> M Z)
  (k : nat) (str : string) (s : State) :
  tokenize (spaces k ++ str) s = tokenize str s /\
  loop_body device table call (spaces k ++ str) s
    = loop_body device table call str s.
Proof.
  assert (Htok : tokenize (spaces k ++ str) s = tokenize str s).
  { rewrite !tokenize_line, strspn_leading_spaces, advance_plus,
      advance_spaces. reflexivity. }
  split; [exact Htok|]. unfold loop_body, bind. rewrite Htok. reflexivity.
Qed.

(** X3.  The loop finds no command word in a line exactly when the line is
    empty or made of space characters only; a command word it finds is never
    empty and contains no space. *)
Theorem command_word_shape (str : string) :
  (command_word str = None <-> only_spaces str = true) /\
  (forall w : string,
     command_word str = Some w -> w <> EmptyString /\ no_space w = true).
Proof.
  unfold command_word. rewrite strtok_line. split.
  - split.
    + destruct (advance (strspn str " ") str) eqn:Hs1; [|discriminate].
      intros _. apply strspn_all_spaces. exact Hs1.
    + intros H. apply only_spaces_no_word in H.
      unfold command_word in H. rewrite strtok_line in H. exact H.
  - intros w. destruct (advance (strspn str " ") str) as [|c r] eqn:Hs1;
      [discriminate|].
    cbn [fst]. intros H. injection H as <-. split.
    + pose proof (strspn_stops str c r Hs1) as Hc.
      rewrite strchr_space in Hc. simpl. rewrite Hc. simpl. discriminate.
    + exact (no_space_take_strcspn (String c r)).
Qed.

Lemma command_word_shape_witness :
  command_word "    " = None /\ no_space "si" = true.
Proof.
  destruct (command_word_shape "    ") as [[_ Hblank] _].
  destruct (command_word_shape "  si  10 ") as [_ Hshape].
  split; [apply Hblank; reflexivity|].
  exact (proj2 (Hshape "si" eq_refl)).
Defined.

(* ================================================================== *)
(** ** Further properties of the handlers *)

Lemma steps_app (t u : list event) : steps (t ++ u) = (steps t ++ steps u)%list.
Proof. apply flat_map_app. Qed.

Lemma history_app (t u : list event) :
  history (t ++ u) = (history t ++ history u)%list.
Proof. apply flat_map_app. Qed.

Lemma printed_app (t u : list event) :
  printed (t ++ u) = (printed t ++ printed u)%list.
Proof. apply flat_map_app. Qed.

Lemma help_lines_inspect (tbl : list cmd_entry) :
  forallb inspect_event (map (fun e => Stdout (help_line e)) tbl) = true.
Proof. induction tbl as [|e tbl IH]; [reflexivity|exact IH]. Qed.

Lemma inspect_is_handler_event (t : list event) :
  forallb inspect_event t = true -> forallb handler_event t = true.
Proof.
  induction t as [|e t IH]; [reflexivity|]. simpl.
  intros H. apply andb_prop in H. destruct H as [He Ht].
  rewrite (IH Ht). destruct e; try discriminate He; reflexivity.
Qed.

Lemma inspect_no_steps (t : list event) :
  forallb inspect_event t = true -> steps t = [].
Proof.
  induction t as [|e t IH]; [reflexivity|]. simpl.
  intros H. apply andb_prop in H. destruct H as [He Ht].
  unfold steps in *. simpl. rewrite (IH Ht).
  destruct e; try discriminate He; reflexivity.
Qed.

(** What the handlers that only inspect add to the state: events of
    inspection, and no change of the emulator. *)
Lemma inspecting_handlers
  (E : Collaborators) (h : handler_id) (args : option string) (s : State) :
  match h with H_help | H_info | H_x => True | _ => False end ->
  exists t,
    trace (snd (call_handler E h args s)) = (trace s ++ t)%list /\
    forallb inspect_event t = true /\
    machine (snd (call_handler E h args s)) = machine s.
Proof.
  destruct h; intros Hh; try contradiction; unfold call_handler.
  - rewrite cmd_help_run. cbn [snd trace machine].
    eexists. split; [reflexivity|]. split; [|reflexivity].
    destruct (next_token s) as [a|].
    + destruct (find_cmd a cmd_table); reflexivity.
    + apply help_lines_inspect.
  - unfold cmd_info. run_monad.
    destruct (strtok None " " (strtok_save s)) as [[a|] save]; simpl.
    + destruct (streq a "r"); simpl;
        [eexists; split; [reflexivity|split; reflexivity]|].
      destruct (streq a "w"); simpl;
        [eexists; split; [reflexivity|split; reflexivity]|].
      destruct (streq a "c"); simpl.
      * rewrite <- !app_assoc. simpl.
        eexists; split; [reflexivity|split; reflexivity].
      * eexists; split; [reflexivity|split; reflexivity].
    + rewrite <- !app_assoc. simpl.
      eexists; split; [reflexivity|split; reflexivity].
  - unfold cmd_x. run_monad.
    destruct (strtok None " " (strtok_save s)) as [a1 save1]; simpl.
    destruct (strtok None " " save1) as [a2 save2]; simpl.
    destruct a1 as [n|]; [destruct a2 as [e|]|]; simpl;
      try (eexists; split; [reflexivity|split; reflexivity]).
    rewrite <- !app_assoc. simpl.
    eexists; split; [reflexivity|split; reflexivity].
Qed.

(** What [cmd_si] adds to the state: either one [cpu_exec(n)] with a
    positive [int] [n], or one line of text and no change of the emulator. *)
Lemma cmd_si_effect (E : Collaborators) (args : option string) (s : State) :
  exists t,
    trace (snd (cmd_si E args s)) = (trace s ++ t)%list /\
    forallb handler_event t = true /\
    Forall (fun n => 1 <= n <= 2 ^ 31 - 1) (steps t) /\
    machine (snd (cmd_si E args s)) = replay E (steps t) (machine s).
Proof.
  unfold cmd_si. run_monad.
  destruct (strtok None " " (strtok_save s)) as [[a|] save]; simpl.
  - pose proof (atoi_range a) as Hr.
    destruct (atoi a <=? 0) eqn:Hn; simpl.
    + eexists. split; [reflexivity|]. split; [reflexivity|].
      split; [constructor|reflexivity].
    + apply Z.leb_gt in Hn. rewrite (to_uint64_small (atoi a)) by lia.
      eexists. split; [reflexivity|]. split; [reflexivity|].
      split; [|reflexivity]. cbn [steps flat_map app].
      apply Forall_cons; [lia|apply Forall_nil].
  - change (to_uint64 1) with 1.
    eexists. split; [reflexivity|]. split; [reflexivity|].
    split; [|reflexivity]. cbn [steps flat_map app].
    apply Forall_cons; [lia|apply Forall_nil].
Qed.

(** What any handler adds to the state. *)
Lemma handler_effect
  (E : Collaborators) (h : handler_id) (args : option string) (s : State) :
  exists t,
    trace (snd (call_handler E h args s)) = (trace s ++ t)%list /\
    forallb handler_event t = true /\
    Forall step_count_ok (steps t) /\
    machine (snd (call_handler E h args s))
      = match h with
        | H_q => mark_quit (replay E (steps t) (machine s))
        | _ => replay E (steps t) (machine s)
        end /\
    (h = H_q -> steps t = []).
Proof.
  assert (Hinspect :
    match h with H_help | H_info | H_x => True | _ => False end ->
    exists t,
      trace (snd (call_handler E h args s)) = (trace s ++ t)%list /\
      forallb handler_event t = true /\
      Forall step_count_ok (steps t) /\
      machine (snd (call_handler E h args s)) = replay E (steps t) (machine s)).
  { intros Hh.
    destruct (inspecting_handlers E h args s Hh) as (t & Ht & Hi & Hm).
    exists t. rewrite (inspect_no_steps t Hi).
    split; [exact Ht|]. split; [apply inspect_is_handler_event; exact Hi|].
    split; [constructor|exact Hm]. }
  destruct h.
  - destruct (Hinspect I) as (t & Ht & Hi & Hs & Hm).
    exists t. repeat split; try assumption. discriminate.
  - unfold call_handler. rewrite cmd_c_run. cbn [snd trace machine].
    eexists. split; [reflexivity|]. split; [reflexivity|].
    split; [|split; [reflexivity|discriminate]].
    cbn [steps flat_map app]. apply Forall_cons; [|apply Forall_nil].
    left. reflexivity.
  - unfold call_handler. rewrite cmd_q_run. cbn [snd trace machine].
    eexists. split; [reflexivity|]. split; [reflexivity|].
    split; [constructor|]. split; reflexivity.
  - destruct (cmd_si_effect E args s) as (t & Ht & Hi & Hs & Hm).
    exists t. split; [exact Ht|]. split; [exact Hi|].
    split; [|split; [exact Hm|discriminate]].
    eapply Forall_impl; [|exact Hs]. intros n Hn. right. exact Hn.
  - destruct (Hinspect I) as (t & Ht & Hi & Hs & Hm).
    exists t. repeat split; try assumption. discriminate.
  - destruct (Hinspect I) as (t & Ht & Hi & Hs & Hm).
    exists t. repeat split; try assumption. discriminate.
Qed.

Lemma handler_events_quiet (t : list event) :
  forallb handler_event t = true ->
  history t = [] /\ fetches t = O /\ invoked t = [].
Proof.
  induction t as [|e t IH]; [repeat split|]. simpl.
  intros H. apply andb_prop in H. destruct H as [He Ht].
  destruct (IH Ht) as (Hh & Hf & Hi).
  unfold history, fetches, invoked in *. simpl.
  destruct e; try discriminate He; simpl; auto.
Qed.

Lemma quit_called_app (c d : list (handler_id * option string)) :
  quit_called (c ++ d) = quit_called c || quit_called d.
Proof. apply existsb_app. Qed.

Lemma replay_app (E : Collaborators) (ns ms : list Z) (m : Machine) :
  replay E (ns ++ ms) m = replay E ms (replay E ns m).
Proof. apply fold_left_app. Qed.

Lemma drain_quiet (device : bool) :
  history (drain_events device) = [] /\ fetches (drain_events device) = O /\
  invoked (drain_events device) = [] /\ steps (drain_events device) = [] /\
  printed (drain_events device) = [].
Proof. destruct device; repeat split. Qed.

Lemma fetch_events_quiet (str : string) :
  history (fetch_events str) = nonempty_lines [str] /\
  invoked (fetch_events str) = [] /\ steps (fetch_events str) = [] /\
  printed (fetch_events str) = [].
Proof.
  unfold fetch_events, nonempty_lines. simpl.
  destruct (negb (Nat.eqb (strlen str) 0)); repeat split.
Qed.

(** What one iteration of the loop over [cmd_table] adds to the state. *)
Lemma iteration_effect (E : Collaborators) (str : string) (s : State) :
  exists t,
    trace (snd (loop_body (CONFIG_DEVICE E) cmd_table (call_handler E) str s))
      = (trace s ++ t)%list /\
    history t = [] /\ fetches t = O /\
    Forall step_count_ok (steps t) /\
    quit_called (invoked t)
      = negb (fst (loop_body (CONFIG_DEVICE E) cmd_table (call_handler E)
                     str s)) /\
    machine (snd (loop_body (CONFIG_DEVICE E) cmd_table (call_handler E) str s))
      = if quit_called (invoked t)
        then mark_quit (replay E (steps t) (machine s))
        else replay E (steps t) (machine s).
Proof.
  destruct (drain_quiet (CONFIG_DEVICE E)) as (Hdh & Hdf & Hdi & Hds & _).
  destruct (command_word str) as [w|] eqn:Hw.
  - destruct (find_cmd w cmd_table) as [e|] eqn:Hfind.
    + pose proof (tokenize_word str s) as Ht. rewrite Hw in Ht.
      destruct (fst (tokenize str s)) as [[w' args]|] eqn:Htok; [|discriminate].
      simpl in Ht. injection Ht as ->.
      rewrite (loop_body_found (CONFIG_DEVICE E) cmd_table (call_handler E)
                 str w args e s Htok Hfind).
      cbn [fst snd]. rewrite call_handler_status.
      destruct (handler_effect E (handler e) args
                  (after (snd (strtok (Some str) " " EmptyString))
                         (drain_events (CONFIG_DEVICE E)
                          ++ [Invoke (handler e) args]) s))
        as (t & Ht & Hev & Hok & Hm & _).
      destruct (handler_events_quiet t Hev) as (Hh & Hf & Hi).
      exists (drain_events (CONFIG_DEVICE E) ++ [Invoke (handler e) args] ++ t)%list.
      rewrite Ht, Hm. cbn [trace machine after].
      rewrite !history_app, !fetches_app, !steps_app, !invoked_app.
      rewrite Hdh, Hdf, Hdi, Hds, Hh, Hf, Hi.
      cbn [app history fetches steps invoked flat_map List.length quit_called
           existsb fst orb Nat.add].
      split; [rewrite <- !app_assoc; reflexivity|].
      split; [reflexivity|]. split; [reflexivity|]. split; [exact Hok|].
      destruct (handler e); split; reflexivity.
    + rewrite (loop_body_unknown (CONFIG_DEVICE E) cmd_table (call_handler E)
                 str w s Hw Hfind).
      cbn [fst snd trace machine after].
      eexists. split; [reflexivity|].
      rewrite !history_app, !fetches_app, !steps_app, !invoked_app.
      rewrite Hdh, Hdf, Hdi, Hds. cbn.
      repeat split. constructor.
  - rewrite (loop_body_blank (CONFIG_DEVICE E) cmd_table (call_handler E)
               str s Hw).
    cbn [fst snd trace machine after].
    exists []. cbn. repeat split. constructor.
Qed.

(** What the read loop over [cmd_table] adds to the state. *)
Lemma repl_effect (E : Collaborators) (input : list string) (s : State) :
  exists (pre : list string) (t : list event),
    input = (pre ++ fst (repl (CONFIG_DEVICE E) cmd_table (call_handler E)
                           input s))%list /\
    trace (snd (repl (CONFIG_DEVICE E) cmd_table (call_handler E) input s))
      = (trace s ++ t)%list /\
    history t = nonempty_lines pre /\
    Forall step_count_ok (steps t) /\
    fetches t = (List.length pre
                 + if quit_called (invoked t) then 0 else 1)%nat /\
    machine (snd (repl (CONFIG_DEVICE E) cmd_table (call_handler E) input s))
      = if quit_called (invoked t)
        then mark_quit (replay E (steps t) (machine s))
        else replay E (steps t) (machine s).
Proof.
  revert s. induction input as [|str rest IH]; intros s.
  - cbn [repl]. rewrite rl_gets_eof. cbn [fst snd trace machine after].
    exists [], [Readline prompt]. cbn. repeat split. constructor.
  - rewrite repl_step.
    destruct (iteration_effect E str (after (strtok_save s) (fetch_events str) s))
      as (t1 & Ht1 & Hh1 & Hf1 & Hok1 & Hq1 & Hm1).
    destruct (fetch_events_quiet str) as (Hfh & Hfi & Hfs & _).
    pose proof (fetches_fetch_events str) as Hff.
    cbn [trace machine after] in Ht1, Hm1.
    destruct (fst (loop_body (CONFIG_DEVICE E) cmd_table (call_handler E) str _))
      eqn:Hgo; cbn [negb] in Hq1.
    + destruct (IH (snd (loop_body (CONFIG_DEVICE E) cmd_table (call_handler E)
                           str (after (strtok_save s) (fetch_events str) s))))
        as (pre & t & Hin & Ht & Hh & Hok & Hf & Hm).
      exists (str :: pre), (fetch_events str ++ t1 ++ t)%list.
      rewrite Ht, Ht1, Hm, Hm1, Hq1.
      rewrite !history_app, !fetches_app, !steps_app, !invoked_app,
        !quit_called_app.
      rewrite Hfh, Hfi, Hfs, Hh1, Hf1, Hff, Hq1, Hh, Hf.
      cbn [app quit_called existsb orb List.length].
      split; [f_equal; exact Hin|].
      split; [rewrite <- !app_assoc; reflexivity|].
      split; [unfold nonempty_lines; simpl;
              destruct (negb (Nat.eqb (strlen str) 0)); reflexivity|].
      split; [apply Forall_app; split; assumption|].
      split; [lia|].
      rewrite replay_app. reflexivity.
    + exists [str], (fetch_events str ++ t1)%list. cbn [fst snd].
      rewrite Ht1, Hm1, Hq1.
      rewrite !history_app, !fetches_app, !steps_app, !invoked_app,
        !quit_called_app.
      rewrite Hfh, Hfi, Hfs, Hh1, Hf1, Hff, Hq1.
      cbn [app quit_called existsb orb List.length].
      split; [reflexivity|].
      split; [rewrite <- !app_assoc; reflexivity|].
      split; [apply app_nil_r|].
      split; [exact Hok1|].
      split; reflexivity.
Qed.

(** X4.  No handler reads its parameter: called with any two values of
    [args] in the same state, a handler returns the same status and leaves
    the same state.  What a handler sees of the line is what [strtok] has
    left of it. *)
Theorem handlers_ignore_args
  (E : Collaborators) (h : handler_id) (a1 a2 : option string) (s : State) :
  call_handler E h a1 s = call_handler E h a2 s.
Proof. destruct h; reflexivity. Qed.

(** X5.  A handler only prints, calls [cpu_exec] or [isa_reg_display], or
    loads a byte: it reads no line and adds nothing to the history.
    [cmd_help], [cmd_info] and [cmd_x] moreover make no call of [cpu_exec]
    and leave the emulator state as it was. *)
Theorem handlers_keep_to_their_events
  (E : Collaborators) (h : handler_id) (args : option string) (s : State) :
  exists t : list event,
    trace (snd (call_handler E h args s)) = (trace s ++ t)%list /\
    forallb handler_event t = true /\
    history t = [] /\ fetches t = O /\
    (h = H_help \/ h = H_info \/ h = H_x ->
     forallb inspect_event t = true /\ steps t = [] /\
     machine (snd (call_handler E h args s)) = machine s).
Proof.
  destruct (handler_effect E h args s) as (t & Ht & Hev & _ & _ & _).
  exists t. destruct (handler_events_quiet t Hev) as (Hh & Hf & _).
  repeat (split; [assumption|]).
  intros Hh'.
  assert (Hk : match h with H_help | H_info | H_x => True | _ => False end)
    by (destruct Hh' as [->|[->| ->]]; exact I).
  destruct (inspecting_handlers E h args s Hk) as (t' & Ht' & Hi' & Hm).
  rewrite Ht in Ht'. apply app_inv_head in Ht'. subst t'.
  split; [exact Hi'|]. split; [apply inspect_no_steps; exact Hi'|exact Hm].
Qed.

Lemma handlers_keep_to_their_events_witness :
  machine (snd (call_handler sample_E H_x (Some "1 2") (at_args "1 2")))
    = halted 0.
Proof.
  destruct (handlers_keep_to_their_events sample_E H_x (Some "1 2")
              (at_args "1 2")) as (t & _ & _ & _ & _ & Hread).
  exact (proj2 (proj2 (Hread (or_intror (or_intror eq_refl))))).
Defined.

(** X6.  The emulator state [sdb_mainloop] leaves is the one it found after
    the calls of [cpu_exec] it made, in the order it made them, and after the
    quit mark [nemu_state.state = NEMU_QUIT] when [cmd_q] was called: the
    shell changes the emulator in no other way, in batch mode and in
    interactive mode. *)
Theorem emulator_follows_cpu_exec_calls
  (E : Collaborators) (input : list string) (s : State) :
  exists t : list event,
    trace (snd (sdb_mainloop E input s)) = (trace s ++ t)%list /\
    machine (snd (sdb_mainloop E input s))
      = if quit_called (invoked t)
        then mark_quit (replay E (steps t) (machine s))
        else replay E (steps t) (machine s).
Proof.
  unfold sdb_mainloop. destruct (is_batch_mode s).
  - unfold bind, emit. rewrite cmd_c_run. cbn [snd trace machine].
    exists [Invoke H_c None; CpuExec (2 ^ 64 - 1)].
    rewrite <- app_assoc. split; reflexivity.
  - destruct (repl_effect E input s) as (pre & t & _ & Ht & _ & _ & _ & Hm).
    exists t. split; assumption.
Qed.

(** X7.  Every step count [sdb_mainloop] passes to [cpu_exec] is either
    [(uint64_t) -1], from [cmd_c], or a positive [int], from [cmd_si]: the
    shell never asks for zero steps. *)
Theorem step_counts_are_positive
  (E : Collaborators) (input : list string) (s : State) :
  exists t : list event,
    trace (snd (sdb_mainloop E input s)) = (trace s ++ t)%list /\
    Forall (fun n => n = 2 ^ 64 - 1 \/ 1 <= n <= 2 ^ 31 - 1) (steps t).
Proof.
  unfold sdb_mainloop. destruct (is_batch_mode s).
  - unfold bind, emit. rewrite cmd_c_run. cbn [snd trace].
    exists [Invoke H_c None; CpuExec (2 ^ 64 - 1)].
    rewrite <- app_assoc. split; [reflexivity|].
    cbn [steps flat_map app]. apply Forall_cons; [|apply Forall_nil].
    left. reflexivity.
  - destruct (repl_effect E input s) as (pre & t & _ & Ht & _ & Hok & _ & _).
    exists t. split; assumption.
Qed.

(** X8.  In interactive mode the lines [sdb_mainloop] reads are a prefix of
    the input, and what it leaves unread is the rest.  Each line read that is
    not empty is added to the history, once and in order, whatever the line
    is; an empty line is not.  The number of calls of [readline] is the
    number of lines read when the loop ends on [cmd_q], and one more, for the
    end of input, when it does not. *)
Theorem history_is_the_nonempty_lines_read
  (E : Collaborators) (input : list string) (s : State) :
  is_batch_mode s = false ->
  exists (read : list string) (t : list event),
    input = (read ++ fst (sdb_mainloop E input s))%list /\
    trace (snd (sdb_mainloop E input s)) = (trace s ++ t)%list /\
    history t = nonempty_lines read /\
    fetches t = (List.length read
                 + if quit_called (invoked t) then 0 else 1)%nat.
Proof.
  intros Hmode. unfold sdb_mainloop. rewrite Hmode.
  destruct (repl_effect E input s) as (pre & t & Hin & Ht & Hh & _ & Hf & _).
  exists pre, t. repeat split; assumption.
Qed.

Lemma history_is_the_nonempty_lines_read_witness :
  history (trace (snd (sdb_mainloop sample_E [" "; ""; "nop"; "q"; "c"]
                         (initial (halted 0)))))
    = [" "; "nop"; "q"] /\
  fst (sdb_mainloop sample_E [" "; ""; "nop"; "q"; "c"] (initial (halted 0)))
    = ["c"].
Proof.
  destruct (history_is_the_nonempty_lines_read sample_E
              [" "; ""; "nop"; "q"; "c"] (initial (halted 0)) eq_refl)
    as (read & t & Hin & Ht & Hh & _).
  assert (Hun : fst (sdb_mainloop sample_E [" "; ""; "nop"; "q"; "c"]
                       (initial (halted 0))) = ["c"]) by reflexivity.
  split; [|exact Hun].
  rewrite Hun in Hin.
  assert (Hread : read = [" "; ""; "nop"; "q"]).
  { apply (app_inv_tail ["c"]). symmetry. exact Hin. }
  rewrite Ht. cbn [trace initial app]. rewrite Hh, Hread. reflexivity.
Defined.

(* ================================================================== *)
(** ** Lines typed at the prompt, from the tokenizer to the handler *)

Lemma append_empty (w : string) : w ++ EmptyString = w.
Proof. induction w as [|c w IH]; simpl; congruence. Qed.

Lemma only_spaces_advance (r : string) :
  only_spaces r = true -> advance (strspn r " ") r = EmptyString.
Proof.
  induction r as [|c r IH]; [reflexivity|]. intros H.
  simpl in H. apply andb_prop in H. destruct H as [Hc Hr].
  cbn [strspn]. rewrite strchr_space, Hc. cbn [advance]. auto.
Qed.

(** [strtok(NULL, " ")] when only spaces are left. *)
Lemma strtok_blank (r : string) :
  only_spaces r = true -> strtok None " " r = (None, EmptyString).
Proof.
  intros H. change (strtok None " " r) with (strtok (Some r) " " EmptyString).
  rewrite strtok_line, (only_spaces_advance r H). reflexivity.
Qed.

(** [strtok(NULL, " ")] when a word is left, after spaces and before the end
    or a space. *)
Lemma strtok_word (j : nat) (w : string) (tail : option string) :
  w <> EmptyString -> no_space w = true ->
  strtok None " " (spaces j ++ w ++ then_rest tail)
    = (Some w, match tail with Some r => r | None => EmptyString end).
Proof.
  intros Hne Hw. destruct w as [|c w]; [contradiction|].
  pose proof (no_space_head c w Hw) as Hc.
  unfold strtok. cbv zeta.
  change (spaces j ++ String c w ++ then_rest tail)
    with (spaces j ++ String c (w ++ then_rest tail)).
  rewrite (strspn_spaces j c _ Hc), advance_spaces.
  change (String c (w ++ then_rest tail)) with (String c w ++ then_rest tail).
  destruct tail as [r|]; cbn [then_rest].
  - rewrite (strcspn_word _ r Hw), advance_append, take_append. reflexivity.
  - rewrite append_empty, (strcspn_word_end _ Hw), advance_all. reflexivity.
Qed.

(** The loop on a line that starts, after spaces, with the name of a row:
    the handler of the row is called with [strtok] at what follows the
    name. *)
Lemma named_line_calls_handler
  (E : Collaborators) (k : nat) (e : cmd_entry) (tail : option string)
  (s : State) :
  In e cmd_table ->
  exists args : option string,
    loop_body (CONFIG_DEVICE E) cmd_table (call_handler E)
      (spaces k ++ name e ++ then_rest tail) s
    = (negb (fst (call_handler E (handler e) args
                    (after (match tail with Some r => r | None => EmptyString end)
                           (drain_events (CONFIG_DEVICE E)
                            ++ [Invoke (handler e) args]) s)) <? 0),
       snd (call_handler E (handler e) args
              (after (match tail with Some r => r | None => EmptyString end)
                     (drain_events (CONFIG_DEVICE E)
                      ++ [Invoke (handler e) args]) s))).
Proof.
  intros Hin. destruct (cmd_table_names_are_words e Hin) as [Hne Hw].
  pose proof (strtok_word k (name e) tail Hne Hw) as Htok.
  change (strtok None " " (spaces k ++ name e ++ then_rest tail))
    with (strtok (Some (spaces k ++ name e ++ then_rest tail)) " " EmptyString)
    in Htok.
  pose proof (tokenize_word (spaces k ++ name e ++ then_rest tail) s) as Hword.
  unfold command_word in Hword. rewrite Htok in Hword. cbn [fst] in Hword.
  destruct (fst (tokenize (spaces k ++ name e ++ then_rest tail) s))
    as [[w args]|] eqn:Ht; [|discriminate].
  simpl in Hword. injection Hword as ->.
  exists args.
  rewrite (loop_body_found (CONFIG_DEVICE E) cmd_table (call_handler E)
             _ (name e) args e s Ht (find_cmd_row e Hin)).
  rewrite Htok. reflexivity.
Qed.

Lemma cmd_si_on_token
  (E : Collaborators) (args : option string) (s : State) (a save : string) :
  strtok None " " (strtok_save s) = (Some a, save) ->
  cmd_si E args s =
  (0, if atoi a <=? 0
      then after save [Stdout ("Invalid step count: " ++ a ++ LF)] s
      else {| machine := cpu_exec E (atoi a) (machine s);
              is_batch_mode := is_batch_mode s;
              strtok_save := save;
              trace := (trace s ++ [CpuExec (atoi a)])%list |}).
Proof.
  intros Htok. unfold cmd_si. run_monad. rewrite Htok. simpl.
  pose proof (atoi_range a) as Hr.
  destruct (atoi a <=? 0) eqn:Hn; simpl; [reflexivity|].
  apply Z.leb_gt in Hn. rewrite (to_uint64_small (atoi a)) by lia.
  reflexivity.
Qed.

(** X9.  The line [si <N>], with any spaces before [si] and between [si]
    and [<N>], and anything after a space behind [<N>]: the loop goes on, and
    when [atoi] of [<N>] is positive it has called [cpu_exec] once, with that
    count, and printed nothing; when it is not, it has printed
    ["Invalid step count: <N>"], called [cpu_exec] not at all and left the
    emulator as it was.  Tokens after [<N>] are ignored. *)
Theorem si_line_steps
  (E : Collaborators) (k j : nat) (a : string) (tail : option string)
  (s : State) :
  a <> EmptyString -> no_space a = true ->
  let line := spaces k ++ "si" ++ String " " (spaces j ++ a ++ then_rest tail) in
  let r := loop_body (CONFIG_DEVICE E) cmd_table (call_handler E) line s in
  fst r = true /\
  invoked (trace (snd r))
    = (invoked (trace s)
       ++ [(H_si, Some (spaces j ++ a ++ then_rest tail)%string)])%list /\
  (0 < atoi a ->
     steps (trace (snd r)) = (steps (trace s) ++ [atoi a])%list /\
     printed (trace (snd r)) = printed (trace s) /\
     machine (snd r) = cpu_exec E (atoi a) (machine s)) /\
  (atoi a <= 0 ->
     steps (trace (snd r)) = steps (trace s) /\
     printed (trace (snd r))
       = (printed (trace s)
          ++ [("Invalid step count: " ++ a ++ LF)%string])%list /\
     machine (snd r) = machine s).
Proof.
  intros Hne Hw line r.
  destruct (drain_quiet (CONFIG_DEVICE E)) as (_ & _ & Hdi & Hds & Hdp).
  assert (Hrest : spaces j ++ a ++ then_rest tail <> EmptyString).
  { destruct j; [|discriminate]. destruct a; [contradiction|discriminate]. }
  assert (Hargs : fst (tokenize line s)
                  = Some ("si", Some (spaces j ++ a ++ then_rest tail))).
  { unfold line.
    rewrite (tokenize_word_rest k "si" (spaces j ++ a ++ then_rest tail) s
               ltac:(discriminate) eq_refl).
    destruct (spaces j ++ a ++ then_rest tail); [contradiction|reflexivity]. }
  pose proof (loop_body_found (CONFIG_DEVICE E) cmd_table (call_handler E)
                line "si" _ (mkCmd "si" "Execute N step(s)" H_si) s Hargs
                eq_refl) as Hrun.
  fold r in Hrun. cbn [handler call_handler] in Hrun.
  assert (Hsave : snd (strtok (Some line) " " EmptyString)
                  = spaces j ++ a ++ then_rest tail).
  { unfold line.
    change (strtok (Some (spaces k ++ "si"
                          ++ String " " (spaces j ++ a ++ then_rest tail)))
              " " EmptyString)
      with (strtok None " "
              (spaces k ++ "si"
               ++ then_rest (Some (spaces j ++ a ++ then_rest tail)))).
    rewrite (strtok_word k "si" _ ltac:(discriminate) eq_refl). reflexivity. }
  rewrite Hsave in Hrun.
  rewrite (cmd_si_on_token E _ _ a
             (match tail with Some r0 => r0 | None => EmptyString end))
    in Hrun by (cbn [strtok_save after]; apply strtok_word; assumption).
  rewrite Hrun. cbn [fst snd Z.ltb Z.compare negb].
  split; [reflexivity|].
  destruct (atoi a <=? 0) eqn:Hn.
  - apply Z.leb_le in Hn. cbn [trace machine after].
    rewrite !invoked_app, !steps_app, !printed_app, Hdi, Hds, Hdp. cbn.
    rewrite !app_nil_r.
    split; [reflexivity|]. split; [intros; lia|].
    intros _. repeat split.
  - apply Z.leb_gt in Hn. cbn [trace machine after].
    rewrite !invoked_app, !steps_app, !printed_app, Hdi, Hds, Hdp. cbn.
    rewrite !app_nil_r.
    split; [reflexivity|]. split; [|intros; lia].
    intros _. repeat split.
Qed.

Lemma si_line_steps_witness :
  steps (trace (snd (loop_body (CONFIG_DEVICE sample_E) cmd_table
                       (call_handler sample_E) " si  3 4"
                       (initial (halted 0))))) = [3] /\
  printed (trace (snd (loop_body (CONFIG_DEVICE sample_E) cmd_table
                         (call_handler sample_E) "si -5"
                         (initial (halted 0)))))
    = ["Invalid step count: -5" ++ LF].
Proof.
  destruct (si_line_steps sample_E 1 1 "3" (Some "4") (initial (halted 0))
              ltac:(discriminate) eq_refl) as (_ & _ & Hpos & _).
  destruct (si_line_steps sample_E 0 0 "-5" None (initial (halted 0))
              ltac:(discriminate) eq_refl) as (_ & _ & _ & Hbad).
  split.
  - exact (proj1 (Hpos ltac:(vm_compute; reflexivity))).
  - exact (proj1 (proj2 (Hbad ltac:(vm_compute; discriminate)))).
Defined.

Lemma cmd_x_run (E : Collaborators) (args : option string) (s : State) :
  cmd_x E args s =
  (0, after (snd (strtok None " " (snd (strtok None " " (strtok_save s)))))
        match next_token s, second_token s with
        | Some n, Some e =>
            [Stdout ("N = " ++ n ++ ", EXPR = " ++ e ++ LF);
             Load8 (guest_to_host E X_PADDR);
             Stdout ("Byte at address " ++ fmt_p (guest_to_host E X_PADDR)
                     ++ ": 0x"
                     ++ fmt_0x 2 (host_byte E (machine s)
                                    (guest_to_host E X_PADDR) mod 2 ^ 8)
                     ++ LF)]
        | _, _ => [Stdout ("Usage: x <N> <EXPR>" ++ LF)]
        end s).
Proof.
  unfold cmd_x, next_token, second_token, after. run_monad.
  destruct (strtok None " " (strtok_save s)) as [a1 save1]; simpl.
  destruct (strtok None " " save1) as [a2 save2]; simpl.
  destruct a1 as [n|]; [destruct a2 as [e|]|]; simpl; try reflexivity.
  rewrite <- !app_assoc. reflexivity.
Qed.

Lemma help_line_text (e : cmd_entry) :
  help_line e = name e ++ " - " ++ description e ++ LF.
Proof. reflexivity. Qed.

(** X10.  The line [help <word>], with any spaces before [help] and between
    [help] and [<word>], and anything after a space behind [<word>]: the loop
    goes on; when [<word>] is the name of a row it has printed the line of
    that row, and when it is no row's name it has printed
    ["Unknown command '<word>'"], the very text the loop prints for the line
    [<word>] itself. *)
Theorem help_line_prints
  (E : Collaborators) (k j : nat) (w : string) (tail : option string)
  (s : State) :
  w <> EmptyString -> no_space w = true ->
  let line :=
    spaces k ++ "help" ++ String " " (spaces j ++ w ++ then_rest tail) in
  let r := loop_body (CONFIG_DEVICE E) cmd_table (call_handler E) line s in
  fst r = true /\
  machine (snd r) = machine s /\
  (forall e : cmd_entry,
     In e cmd_table -> w = name e ->
     printed (trace (snd r))
       = (printed (trace s)
          ++ [(name e ++ " - " ++ description e ++ LF)%string])%list) /\
  (~ In w (names cmd_table) ->
     printed (trace (snd r))
       = (printed (trace s)
          ++ [("Unknown command '" ++ w ++ "'" ++ LF)%string])%list /\
     printed (trace (snd (loop_body (CONFIG_DEVICE E) cmd_table
                            (call_handler E)
                            (spaces k ++ w ++ then_rest tail) s)))
       = printed (trace (snd r))).
Proof.
  intros Hne Hw line r.
  destruct (drain_quiet (CONFIG_DEVICE E)) as (_ & _ & _ & _ & Hdp).
  destruct (named_line_calls_handler E k
              (mkCmd "help" "Display information about all supported commands"
                 H_help)
              (Some (spaces j ++ w ++ then_rest tail)) s
              ltac:(simpl; tauto)) as (args & Hrun).
  cbn [name handler then_rest call_handler] in Hrun.
  fold line in Hrun. fold r in Hrun.
  rewrite cmd_help_run in Hrun. unfold next_token in Hrun.
  cbn [strtok_save after fst snd] in Hrun.
  rewrite (strtok_word j w tail Hne Hw) in Hrun. cbn [fst snd] in Hrun.
  rewrite Hrun. cbn [fst snd Z.ltb Z.compare negb trace machine after].
  split; [reflexivity|]. split; [reflexivity|]. split.
  - intros e Hin ->. rewrite (find_cmd_row e Hin).
    rewrite !printed_app, Hdp. cbn. rewrite app_nil_r. reflexivity.
  - intros Hno. apply find_cmd_none in Hno. rewrite Hno.
    rewrite !printed_app, Hdp. cbn. rewrite !app_nil_r.
    split; [reflexivity|].
    assert (Hword : command_word (spaces k ++ w ++ then_rest tail) = Some w).
    { unfold command_word.
      change (strtok (Some (spaces k ++ w ++ then_rest tail)) " " EmptyString)
        with (strtok None " " (spaces k ++ w ++ then_rest tail)).
      rewrite (strtok_word k w tail Hne Hw). reflexivity. }
    rewrite (loop_body_unknown (CONFIG_DEVICE E) cmd_table (call_handler E)
               _ w s Hword Hno).
    cbn [snd trace after]. rewrite !printed_app, Hdp. reflexivity.
Qed.

Lemma help_line_prints_witness :
  printed (trace (snd (loop_body (CONFIG_DEVICE sample_E) cmd_table
                         (call_handler sample_E) "help  x now"
                         (initial (halted 0)))))
    = ["x - Scan memory" ++ LF] /\
  printed (trace (snd (loop_body (CONFIG_DEVICE sample_E) cmd_table
                         (call_handler sample_E) "help X"
                         (initial (halted 0)))))
    = ["Unknown command 'X'" ++ LF].
Proof.
  destruct (help_line_prints sample_E 0 1 "x" (Some "now") (initial (halted 0))
              ltac:(discriminate) eq_refl) as (_ & _ & Hrow & _).
  destruct (help_line_prints sample_E 0 0 "X" None (initial (halted 0))
              ltac:(discriminate) eq_refl) as (_ & _ & _ & Hunk).
  split.
  - exact (Hrow (mkCmd "x" "Scan memory" H_x) ltac:(simpl; tauto) eq_refl).
  - exact (proj1 (Hunk ltac:(simpl; intuition discriminate))).
Defined.

(** X11.  The line [x ...], with any spaces before [x].  When nothing but
    spaces follows [x], or one word and nothing but spaces after it, the loop
    prints the usage line, loads no byte and goes on.  When two words follow,
    it loads one byte, at the host address of guest address [0x80000000], and
    goes on; what the words are, and what follows them, changes neither the
    address nor the number of loads. *)
Theorem x_line_loads
  (E : Collaborators) (k : nat) (s : State) :
  (forall tail : option string,
     (forall r, tail = Some r -> only_spaces r = true) ->
     let r := loop_body (CONFIG_DEVICE E) cmd_table (call_handler E)
                (spaces k ++ "x" ++ then_rest tail) s in
     fst r = true /\ loads (trace (snd r)) = loads (trace s) /\
     printed (trace (snd r))
       = (printed (trace s) ++ [("Usage: x <N> <EXPR>" ++ LF)%string])%list) /\
  (forall (j : nat) (n : string) (tail : option string),
     n <> EmptyString -> no_space n = true ->
     (forall r, tail = Some r -> only_spaces r = true) ->
     let r := loop_body (CONFIG_DEVICE E) cmd_table (call_handler E)
                (spaces k ++ "x" ++ String " " (spaces j ++ n ++ then_rest tail))
                s in
     fst r = true /\ loads (trace (snd r)) = loads (trace s) /\
     printed (trace (snd r))
       = (printed (trace s) ++ [("Usage: x <N> <EXPR>" ++ LF)%string])%list) /\
  (forall (j i : nat) (n e : string) (tail : option string),
     n <> EmptyString -> no_space n = true ->
     e <> EmptyString -> no_space e = true ->
     let r := loop_body (CONFIG_DEVICE E) cmd_table (call_handler E)
                (spaces k ++ "x"
                 ++ String " " (spaces j ++ n
                                ++ String " " (spaces i ++ e ++ then_rest tail)))
                s in
     fst r = true /\
     loads (trace (snd r))
       = (loads (trace s) ++ [guest_to_host E 0x80000000])%list /\
     machine (snd r) = machine s).
Proof.
  destruct (drain_quiet (CONFIG_DEVICE E)) as (_ & _ & _ & _ & Hdp).
  assert (Hdl : loads (drain_events (CONFIG_DEVICE E)) = [])
    by (destruct (CONFIG_DEVICE E); reflexivity).
  assert (Hblank : forall tail : option string,
            (forall r, tail = Some r -> only_spaces r = true) ->
            strtok None " "
              (match tail with Some r => r | None => EmptyString end)
            = (None, EmptyString)).
  { intros [r|] H; [apply strtok_blank; auto|reflexivity]. }
  split; [|split].
  - intros tail Htail r.
    destruct (named_line_calls_handler E k (mkCmd "x" "Scan memory" H_x)
                tail s ltac:(simpl; tauto)) as (args & Hrun).
    cbn [name handler call_handler] in Hrun. fold r in Hrun.
    rewrite cmd_x_run in Hrun. unfold next_token, second_token in Hrun.
    cbn [strtok_save after] in Hrun.
    rewrite (Hblank tail Htail) in Hrun. cbn [fst snd] in Hrun.
    rewrite Hrun. cbn [fst snd Z.ltb Z.compare negb trace after].
    unfold loads. rewrite !flat_map_app. fold (loads (trace s)).
    fold (loads (drain_events (CONFIG_DEVICE E))).
    rewrite !printed_app, Hdp, Hdl. cbn. rewrite !app_nil_r. repeat split.
  - intros j n tail Hne Hw Htail r.
    destruct (named_line_calls_handler E k (mkCmd "x" "Scan memory" H_x)
                (Some (spaces j ++ n ++ then_rest tail)) s
                ltac:(simpl; tauto)) as (args & Hrun).
    cbn [name handler call_handler then_rest] in Hrun. fold r in Hrun.
    rewrite cmd_x_run in Hrun. unfold next_token, second_token in Hrun.
    cbn [strtok_save after] in Hrun.
    rewrite (strtok_word j n tail Hne Hw) in Hrun. cbn [fst snd] in Hrun.
    rewrite (Hblank tail Htail) in Hrun. cbn [fst snd] in Hrun.
    rewrite Hrun. cbn [fst snd Z.ltb Z.compare negb trace after].
    unfold loads. rewrite !flat_map_app. fold (loads (trace s)).
    fold (loads (drain_events (CONFIG_DEVICE E))).
    rewrite !printed_app, Hdp, Hdl. cbn. rewrite !app_nil_r. repeat split.
  - intros j i n e tail Hne Hw Hne' Hw' r.
    destruct (named_line_calls_handler E k (mkCmd "x" "Scan memory" H_x)
                (Some (spaces j ++ n
                       ++ String " " (spaces i ++ e ++ then_rest tail))) s
                ltac:(simpl; tauto)) as (args & Hrun).
    cbn [name handler call_handler then_rest] in Hrun. fold r in Hrun.
    rewrite cmd_x_run in Hrun. unfold next_token, second_token in Hrun.
    cbn [strtok_save after] in Hrun.
    pose proof (strtok_word j n (Some (spaces i ++ e ++ then_rest tail))
                  Hne Hw) as Hfirst.
    cbn [then_rest] in Hfirst. rewrite Hfirst in Hrun.
    cbn [fst snd] in Hrun.
    rewrite (strtok_word i e tail Hne' Hw') in Hrun. cbn [fst snd] in Hrun.
    rewrite Hrun. cbn [fst snd Z.ltb Z.compare negb trace machine after].
    unfold loads. rewrite !flat_map_app. fold (loads (trace s)).
    fold (loads (drain_events (CONFIG_DEVICE E))).
    rewrite Hdl. cbn. rewrite !app_nil_r. repeat split.
Qed.

Lemma x_line_loads_witness :
  loads (trace (snd (loop_body (CONFIG_DEVICE sample_E) cmd_table
                       (call_handler sample_E) "x 10  "
                       (initial (halted 0))))) = [] /\
  loads (trace (snd (loop_body (CONFIG_DEVICE sample_E) cmd_table
                       (call_handler sample_E) "x 10 $sp"
                       (initial (halted 0))))) = [0x7f0000001000].
Proof.
  destruct (x_line_loads sample_E 0 (initial (halted 0)))
    as (_ & Hone & Htwo).
  split.
  - exact (proj1 (proj2 (Hone 0%nat "10" (Some " ") ltac:(discriminate)
                           eq_refl
                           ltac:(intros r H; injection H as <-; reflexivity)))).
  - exact (proj1 (proj2 (Htwo 0%nat 0%nat "10" "$sp" None
                           ltac:(discriminate) eq_refl
                           ltac:(discriminate) eq_refl))).
Defined.

(** X12.  [cmd_info] returns 0 and leaves the emulator as it was.  Its
    argument is the token its call [strtok(NULL, " ")] finds.  With [r] it
    calls [isa_reg_display] and prints nothing itself; with [w] it prints that
    watchpoints are not implemented; with [c] it prints four lines: the run
    state, ["RUNNING"] when [nemu_state.state] is [NEMU_RUNNING] and
    ["HALTED"] otherwise, the halt program counter and the program counter as
    eight hexadecimal digits, and the halt return code; with any other
    argument it prints ["Unknown argument '<arg>' for 'info' command."];
    without an argument it prints the four lines of the usage. *)
Theorem cmd_info_prints (args : option string) (s : State) :
  fst (cmd_info args s) = 0 /\
  machine (snd (cmd_info args s)) = machine s /\
  (next_token s = None ->
     trace (snd (cmd_info args s))
       = (trace s ++
          [Stdout ("Usage: info <r|w|c>" ++ LF);
           Stdout ("  r - print registers" ++ LF);
           Stdout ("  w - print watchpoints (not implemented yet)" ++ LF);
           Stdout ("  c - print NEMU state and halt information" ++ LF)])%list) /\
  (next_token s = Some "r" ->
     trace (snd (cmd_info args s)) = (trace s ++ [IsaRegDisplay])%list) /\
  (next_token s = Some "w" ->
     trace (snd (cmd_info args s))
       = (trace s
          ++ [Stdout ("(Watchpoints are not implemented yet.)" ++ LF)])%list) /\
  (next_token s = Some "c" ->
     exists shown : string,
       (state (nemu_state (machine s)) = NEMU_RUNNING -> shown = "RUNNING") /\
       (state (nemu_state (machine s)) <> NEMU_RUNNING -> shown = "HALTED") /\
       trace (snd (cmd_info args s))
         = (trace s ++
            [Stdout ("NEMU state: " ++ shown ++ LF);
             Stdout ("Halt PC: 0x"
                     ++ fmt_0x 8 (halt_pc (nemu_state (machine s))) ++ LF);
             Stdout ("cpu PC: 0x" ++ fmt_0x 8 (cpu_pc (machine s)) ++ LF);
             Stdout ("Halt return value: "
                     ++ fmt_d (halt_ret (nemu_state (machine s))) ++ LF)])%list) /\
  (forall a : string,
     next_token s = Some a -> a <> "r" -> a <> "w" -> a <> "c" ->
     trace (snd (cmd_info args s))
       = (trace s
          ++ [Stdout ("Unknown argument '" ++ a ++ "' for 'info' command."
                      ++ LF)])%list).
Proof.
  unfold next_token, cmd_info. run_monad.
  destruct (strtok None " " (strtok_save s)) as [[a|] save]; cbn [fst snd].
  - destruct (streq a "r") eqn:Hr.
    { apply streq_eq in Hr. subst a. simpl.
      repeat split; try discriminate; intros; congruence. }
    destruct (streq a "w") eqn:Hw'.
    { apply streq_eq in Hw'. subst a. simpl.
      repeat split; try discriminate; intros; congruence. }
    destruct (streq a "c") eqn:Hc.
    { apply streq_eq in Hc. subst a. simpl.
      split; [reflexivity|]. split; [reflexivity|].
      split; [discriminate|]. split; [discriminate|]. split; [discriminate|].
      split; [|intros; congruence].
      intros _. rewrite <- !app_assoc. simpl.
      exists (match state (nemu_state (machine s)) with
              | NEMU_RUNNING => "RUNNING"
              | _ => "HALTED"
              end).
      split; [intros ->; reflexivity|]. split; [|reflexivity].
      destruct (state (nemu_state (machine s))); intros H;
        try reflexivity; contradiction. }
    simpl.
    assert (Hnr : a <> "r") by (intros ->; discriminate Hr).
    assert (Hnw : a <> "w") by (intros ->; discriminate Hw').
    assert (Hnc : a <> "c") by (intros ->; discriminate Hc).
    split; [reflexivity|]. split; [reflexivity|].
    split; [discriminate|].
    split; [intros H; injection H as ->; contradiction|].
    split; [intros H; injection H as ->; contradiction|].
    split; [intros H; injection H as ->; contradiction|].
    intros b Hb _ _ _. injection Hb as <-. reflexivity.
  - simpl. rewrite <- !app_assoc. simpl.
    repeat split; try discriminate.
Qed.

Lemma cmd_info_prints_witness :
  printed (trace (snd (cmd_info (Some "c") (at_args "c"))))
    = ["NEMU state: HALTED" ++ LF; "Halt PC: 0x80000010" ++ LF;
       "cpu PC: 0x80000010" ++ LF; "Halt return value: 0" ++ LF] /\
  printed (trace (snd (cmd_info (Some "R") (at_args "R"))))
    = ["Unknown argument 'R' for 'info' command." ++ LF].
Proof.
  destruct (cmd_info_prints (Some "c") (at_args "c"))
    as (_ & _ & _ & _ & _ & Hc & _).
  destruct (cmd_info_prints (Some "R") (at_args "R"))
    as (_ & _ & _ & _ & _ & _ & Hother).
  destruct (Hc eq_refl) as (shown & _ & Hhalted & Htrace).
  rewrite Htrace, (Hhalted ltac:(discriminate)).
  rewrite (Hother "R" eq_refl ltac:(discriminate) ltac:(discriminate)
             ltac:(discriminate)).
  split; reflexivity.
Defined.

(* ================================================================== *)
(** ** Counting what the loop does *)

Lemma drains_app (t u : list event) : drains (t ++ u) = (drains t + drains u)%nat.
Proof. unfold drains. rewrite flat_map_app, length_app. reflexivity. Qed.

Lemma inits_app (t u : list event) : inits (t ++ u) = (inits t ++ inits u)%list.
Proof. apply flat_map_app. Qed.

Lemma handler_events_no_drain (t : list event) :
  forallb handler_event t = true -> drains t = O /\ inits t = [].
Proof.
  induction t as [|e t IH]; [split; reflexivity|]. simpl.
  intros H. apply andb_prop in H. destruct H as [He Ht].
  destruct (IH Ht) as [Hd Hi]. unfold drains, inits in *. simpl.
  destruct e; try discriminate He; simpl; auto.
Qed.

(** What one iteration over [cmd_table] counts for. *)
Lemma iteration_counts (E : Collaborators) (str : string) (s : State) :
  exists t,
    trace (snd (loop_body (CONFIG_DEVICE E) cmd_table (call_handler E) str s))
      = (trace s ++ t)%list /\
    drains t = (if CONFIG_DEVICE E && has_word str then 1 else 0)%nat /\
    List.length (invoked t) = (if names_row str then 1 else 0)%nat /\
    inits t = [].
Proof.
  unfold has_word, names_row.
  destruct (command_word str) as [w|] eqn:Hw.
  - destruct (find_cmd w cmd_table) as [e|] eqn:Hfind.
    + pose proof (tokenize_word str s) as Ht. rewrite Hw in Ht.
      destruct (fst (tokenize str s)) as [[w' args]|] eqn:Htok; [|discriminate].
      simpl in Ht. injection Ht as ->.
      rewrite (loop_body_found (CONFIG_DEVICE E) cmd_table (call_handler E)
                 str w args e s Htok Hfind).
      cbn [snd].
      destruct (handler_effect E (handler e) args
                  (after (snd (strtok (Some str) " " EmptyString))
                         (drain_events (CONFIG_DEVICE E)
                          ++ [Invoke (handler e) args]) s))
        as (t & Ht & Hev & _).
      destruct (handler_events_quiet t Hev) as (_ & _ & Hi).
      destruct (handler_events_no_drain t Hev) as (Hd & Hn).
      exists (drain_events (CONFIG_DEVICE E) ++ [Invoke (handler e) args] ++ t)%list.
      rewrite Ht. cbn [trace after].
      rewrite !drains_app, !invoked_app, !inits_app, Hd, Hi, Hn.
      split; [rewrite <- !app_assoc; reflexivity|].
      unfold drain_events. destruct (CONFIG_DEVICE E); repeat split.
    + rewrite (loop_body_unknown (CONFIG_DEVICE E) cmd_table (call_handler E)
                 str w s Hw Hfind).
      cbn [snd trace after]. eexists. split; [reflexivity|].
      rewrite !drains_app, !invoked_app, !inits_app.
      unfold drain_events. destruct (CONFIG_DEVICE E); repeat split.
  - rewrite (loop_body_blank (CONFIG_DEVICE E) cmd_table (call_handler E)
               str s Hw).
    cbn [snd trace after]. exists [].
    rewrite andb_false_r. repeat split.
Qed.

(** What the read loop over [cmd_table] counts for. *)
Lemma repl_counts (E : Collaborators) (input : list string) (s : State) :
  exists (pre : list string) (t : list event),
    input = (pre ++ fst (repl (CONFIG_DEVICE E) cmd_table (call_handler E)
                           input s))%list /\
    trace (snd (repl (CONFIG_DEVICE E) cmd_table (call_handler E) input s))
      = (trace s ++ t)%list /\
    drains t = (if CONFIG_DEVICE E
                then List.length (filter has_word pre) else 0)%nat /\
    List.length (invoked t) = List.length (filter names_row pre) /\
    inits t = [].
Proof.
  revert s. induction input as [|str rest IH]; intros s.
  - cbn [repl]. rewrite rl_gets_eof. cbn [fst snd trace after].
    exists [], [Readline prompt]. repeat split.
    destruct (CONFIG_DEVICE E); reflexivity.
  - rewrite repl_step.
    destruct (iteration_counts E str (after (strtok_save s) (fetch_events str) s))
      as (t1 & Ht1 & Hd1 & Hi1 & Hn1).
    cbn [trace after] in Ht1.
    assert (Hfetch : drains (fetch_events str) = O /\
                     invoked (fetch_events str) = [] /\
                     inits (fetch_events str) = []).
    { unfold fetch_events.
      destruct (negb (Nat.eqb (strlen str) 0)); repeat split. }
    destruct Hfetch as (Hfd & Hfi & Hfn).
    destruct (fst (loop_body (CONFIG_DEVICE E) cmd_table (call_handler E) str _)).
    + destruct (IH (snd (loop_body (CONFIG_DEVICE E) cmd_table (call_handler E)
                           str (after (strtok_save s) (fetch_events str) s))))
        as (pre & t & Hin & Ht & Hd & Hi & Hn).
      exists (str :: pre), (fetch_events str ++ t1 ++ t)%list.
      rewrite Ht, Ht1.
      rewrite !drains_app, !invoked_app, !inits_app, !length_app.
      rewrite Hfd, Hfi, Hfn, Hd1, Hi1, Hn1, Hd, Hi, Hn.
      split; [simpl; f_equal; exact Hin|].
      split; [rewrite <- !app_assoc; reflexivity|].
      cbn [filter].
      destruct (CONFIG_DEVICE E), (has_word str), (names_row str);
        repeat split; reflexivity.
    + exists [str], (fetch_events str ++ t1)%list. cbn [fst snd].
      rewrite Ht1.
      rewrite !drains_app, !invoked_app, !inits_app, !length_app.
      rewrite Hfd, Hfi, Hfn, Hd1, Hi1, Hn1.
      split; [reflexivity|].
      split; [rewrite <- !app_assoc; reflexivity|].
      cbn [filter].
      destruct (CONFIG_DEVICE E), (has_word str), (names_row str);
        repeat split; reflexivity.
Qed.

(** X13.  In interactive mode the loop calls [sdl_clear_event_queue] once
    for every line read that has a command word, known or not, when the build
    defines [CONFIG_DEVICE], and never when it does not; an empty line or a
    line of spaces drains nothing.  In batch mode it is never called. *)
Theorem event_queue_drained_once_per_command
  (E : Collaborators) (input : list string) (s : State) :
  exists (read : list string) (t : list event),
    trace (snd (sdb_mainloop E input s)) = (trace s ++ t)%list /\
    (is_batch_mode s = true -> drains t = O) /\
    (is_batch_mode s = false ->
       input = (read ++ fst (sdb_mainloop E input s))%list /\
       drains t = (if CONFIG_DEVICE E
                   then List.length (filter has_word read) else 0)%nat).
Proof.
  unfold sdb_mainloop. destruct (is_batch_mode s).
  - unfold bind, emit. rewrite cmd_c_run. cbn [snd trace].
    exists [], [Invoke H_c None; CpuExec (2 ^ 64 - 1)].
    rewrite <- app_assoc. split; [reflexivity|].
    split; [reflexivity|discriminate].
  - destruct (repl_counts E input s) as (pre & t & Hin & Ht & Hd & _ & _).
    exists pre, t. split; [exact Ht|]. split; [discriminate|].
    intros _. split; assumption.
Qed.

Lemma event_queue_drained_once_per_command_witness :
  drains (trace (snd (sdb_mainloop sample_E ["help"; "  "; "nop"; ""]
                        (initial (halted 0))))) = 2%nat.
Proof.
  destruct (event_queue_drained_once_per_command sample_E
              ["help"; "  "; "nop"; ""] (initial (halted 0)))
    as (read & t & Ht & _ & Hloop).
  destruct (Hloop eq_refl) as [Hin Hd].
  assert (Hun : fst (sdb_mainloop sample_E ["help"; "  "; "nop"; ""]
                       (initial (halted 0))) = []) by reflexivity.
  rewrite Hun, app_nil_r in Hin. subst read.
  rewrite Ht. cbn [trace initial app]. rewrite Hd. reflexivity.
Defined.



(** X15.  [init_sdb] calls [init_regex] and then [init_wp_pool], once each,
    and does nothing else; [sdb_mainloop] calls neither, in any mode. *)
Theorem initialisation_only_in_init_sdb
  (E : Collaborators) (input : list string) (s : State) :
  init_sdb s = (tt, after (strtok_save s) [InitRegex; InitWpPool] s) /\
  exists t : list event,
    trace (snd (sdb_mainloop E input s)) = (trace s ++ t)%list /\
    inits t = [].
Proof.
  split.
  - unfold init_sdb, after. run_monad. rewrite <- app_assoc. reflexivity.
  - unfold sdb_mainloop. destruct (is_batch_mode s).
    + unfold bind, emit. rewrite cmd_c_run. cbn [snd trace].
      exists [Invoke H_c None; CpuExec (2 ^ 64 - 1)].
      rewrite <- app_assoc. split; reflexivity.
    + destruct (repl_counts E input s) as (pre & t & _ & Ht & _ & _ & Hn).
      exists t. split; assumption.
Qed.

(* ================================================================== *)
(** ** The search of the command table *)

(** X16.  The search loop of [sdb_mainloop] and [cmd_help] finds the first
    row whose name is the word, compared as whole strings: it returns a row
    exactly when the table splits into rows that are not named by the word,
    that row, named by the word, and the rest; it returns none exactly when
    no row is named by the word.  In [cmd_table], whose names are distinct,
    it returns the one row of that name. *)
Theorem find_cmd_first_match (w : string) (tbl : list cmd_entry) :
  (forall e : cmd_entry,
     find_cmd w tbl = Some e <->
     exists pre post : list cmd_entry,
       tbl = (pre ++ e :: post)%list /\ name e = w /\ ~ In w (names pre)) /\
  (find_cmd w tbl = None <-> ~ In w (names tbl)) /\
  (forall e : cmd_entry,
     find_cmd w cmd_table = Some e <-> In e cmd_table /\ name e = w).
Proof.
  split; [|split].
  - intros e. split.
    + revert e. induction tbl as [|e' tbl IH]; intros e; simpl; [discriminate|].
      destruct (streq w (name e')) eqn:Hw.
      * intros H. injection H as <-. apply streq_eq in Hw.
        exists [], tbl. repeat split; auto.
      * intros H. destruct (IH e H) as (pre & post & -> & Hn & Hpre).
        exists (e' :: pre), post. repeat split; auto.
        simpl. intros [He|Hin]; [|auto].
        rewrite <- He in Hw. unfold streq in Hw.
        rewrite String.eqb_refl in Hw. discriminate.
    + intros (pre & post & -> & Hn & Hpre).
      induction pre as [|e' pre IH]; simpl.
      * subst w. unfold streq. rewrite String.eqb_refl. reflexivity.
      * destruct (streq w (name e')) eqn:Hw.
        -- apply streq_eq in Hw. exfalso. apply Hpre. left. auto.
        -- apply IH. intros Hin. apply Hpre. right. exact Hin.
  - apply find_cmd_none.
  - intros e. split.
    + apply find_cmd_some.
    + intros [Hin <-]. apply find_cmd_row. exact Hin.
Qed.

Lemma find_cmd_first_match_witness :
  find_cmd "Q" cmd_table = None /\
  find_cmd "q" cmd_table = Some (mkCmd "q" "Exit NEMU" H_q).
Proof.
  destruct (find_cmd_first_match "Q" cmd_table) as (_ & Hnone & _).
  destruct (find_cmd_first_match "q" cmd_table) as (_ & _ & Hrow).
  split.
  - apply Hnone. simpl. intuition discriminate.
  - apply Hrow. simpl. tauto.
Defined.

(** X17.  The line [c], with any spaces before it and anything after a
    space behind it: the loop calls [cpu_exec] once, with [(uint64_t) -1],
    prints nothing itself and goes on; the emulator is left as [cpu_exec]
    leaves it, as in batch mode. *)
Theorem c_line_runs
  (E : Collaborators) (k : nat) (tail : option string) (s : State) :
  let r := loop_body (CONFIG_DEVICE E) cmd_table (call_handler E)
             (spaces k ++ "c" ++ then_rest tail) s in
  fst r = true /\
  steps (trace (snd r)) = (steps (trace s) ++ [2 ^ 64 - 1])%list /\
  printed (trace (snd r)) = printed (trace s) /\
  machine (snd r) = cpu_exec E (2 ^ 64 - 1) (machine s) /\
  (forall input : list string,
     is_batch_mode s = true ->
     machine (snd (sdb_mainloop E input s)) = machine (snd r)).
Proof.
  intros r.
  destruct (drain_quiet (CONFIG_DEVICE E)) as (_ & _ & _ & Hds & Hdp).
  destruct (named_line_calls_handler E k
              (mkCmd "c" "Continue the execution of the program" H_c)
              tail s ltac:(simpl; tauto)) as (args & Hrun).
  cbn [name handler call_handler] in Hrun. fold r in Hrun.
  rewrite cmd_c_run in Hrun. rewrite Hrun.
  cbn [fst snd Z.ltb Z.compare negb trace machine after].
  rewrite !steps_app, !printed_app, Hds, Hdp. cbn. rewrite !app_nil_r.
  repeat split.
  intros input Hmode. unfold sdb_mainloop. rewrite Hmode.
  unfold bind, emit. rewrite cmd_c_run. reflexivity.
Qed.

Lemma c_line_runs_witness :
  machine (snd (sdb_mainloop sample_E ["q"]
                  (snd (sdb_set_batch_mode (initial (halted 0))))))
    = cpu_exec sample_E (2 ^ 64 - 1) (halted 0).
Proof.
  destruct (c_line_runs sample_E 0 None
              (snd (sdb_set_batch_mode (initial (halted 0)))))
    as (_ & _ & _ & Hm & Hbatch).
  rewrite (Hbatch ["q"] eq_refl). exact Hm.
Defined.
